(** * pyticketswitch: identity resolution and crypto-block cache of
      [InterfaceObject] (pyticketswitch/interface_objects/base.py)

    The methods of [InterfaceObject] are embedded as computations of a
    state-and-exception monad.  The state holds the attributes of one
    instance ([settings], [_session_store], [_session], [_core_api])
    together with the part of the world the instance talks to: the heap of
    host session objects (an instance only holds a reference to its
    session, so two instances can share one) and the trace of the calls
    made on the collaborators and of the [logger.debug] lines.

    The code base is Python 2 ([basestring], [unicode], [iteritems]):
    [dict.keys()] returns a fresh list, so deleting while iterating over it
    is allowed. *)

From Stdlib Require Import String Ascii ZArith Bool Sorted.
From stdpp Require Import base option list gmap strings fin_maps.

Local Open Scope string_scope.

(** ** Python values *)

Module Py.

(** The values that flow through the layer: [None], booleans, strings
    (user names, addresses, crypto blocks) and any other object (a running
    user descriptor, ...), which is identified by the text [str()] gives
    for it. *)
Inductive value : Type :=
| VNone
| VBool (b : bool)
| VStr (s : string)
| VObj (repr : string).

#[global] Instance value_eq_dec : EqDecision value.
Proof. solve_decision. Defined.

(** Truth value testing: [None], [False] and the empty string are false. *)
Definition truthy (v : value) : bool :=
  match v with
  | VNone => false
  | VBool b => b
  | VStr s => negb (String.eqb s "")
  | VObj _ => true
  end.

(** [a != b] *)
Definition ne (a b : value) : bool := negb (bool_decide (a = b)).

(** What ['{0}'.format(v)] renders. *)
Definition str (v : value) : string :=
  match v with
  | VNone => "None"
  | VBool true => "True"
  | VBool false => "False"
  | VStr s => s
  | VObj r => r
  end.

(** [key.startswith(p)] *)
Definition startswith (key p : string) : bool := String.prefix p key.

(** The exceptions the layer can meet. *)
Inductive exn : Type :=
| KeyError (key : string)
| AttributeError (attr : string)
| RemoteError (msg : string).

Inductive outcome (A : Type) : Type :=
| Return (a : A)
| Raise (e : exn).
Arguments Return {A} a.
Arguments Raise {A} e.

End Py.
Export Py.

(** ** Collaborators *)

(** A host session object: a dict-like store, which may expose [save] and may
    expose a bulk operation [flush_crypto_blocks] of its own. *)
Record Session : Type := {
  sess_data : gmap string value;
  sess_has_save : bool;
  sess_flush : option (gmap string value -> gmap string value);
}.

Definition blank_session : Session :=
  {| sess_data := ∅; sess_has_save := false; sess_flush := None |}.

(** Modelled from the spec: the wire-protocol client
    [pyticketswitch.interface.CoreAPI] is not among the sources.  It is built
    from the connection settings, carries the [username] and [running_user]
    attributes the layer reads, and its [start_session] performs the remote
    call that yields a crypto block or fails. *)
Record CoreAPI : Type := {
  api_username : value;
  api_password : value;
  api_url : value;
  api_remote_ip : value;
  api_remote_site : value;
  api_accept_language : value;
  api_ext_start_session_url : value;
  api_request_timeout : value;
  api_running_user : value;
}.

Inductive SessionCall : Type :=
| SSetItem (key : string) (data : value)
| SGet (key : string)
| SKeys
| SDelItem (key : string)
| SSave
| SFlush.

(** What an observer of the instance sees, oldest first: the three
    [logger.debug] lines of the class, the calls made on the client and on
    the session, and each derivation of a crypto-block key together with what
    [settings] held as username at that moment. *)
Inductive Event : Type :=
| LogStore (key : string) (data : value)
| LogRetrieve (key : string) (data : value)
| LogClear
| CallStartSession
| CallSession (ref : nat) (c : SessionCall)
| KeyDerived (username : option value) (key : string).

#[global] Instance SessionCall_eq_dec : EqDecision SessionCall.
Proof. solve_decision. Defined.

#[global] Instance Event_eq_dec : EqDecision Event.
Proof. solve_decision. Defined.

(** ** State *)

Record State : Type := {
  (* attributes of the instance *)
  settings : gmap string value;
  _session_store : gmap string value;
  _session : option nat;
  _core_api : option CoreAPI;
  (* the world *)
  heap : gmap nat Session;
  trace : list Event;
}.

Definition with_settings (s : gmap string value) (st : State) : State :=
  {| settings := s; _session_store := _session_store st;
     _session := _session st; _core_api := _core_api st;
     heap := heap st; trace := trace st |}.

Definition with_session_store (m : gmap string value) (st : State) : State :=
  {| settings := settings st; _session_store := m;
     _session := _session st; _core_api := _core_api st;
     heap := heap st; trace := trace st |}.

Definition with_core_api (c : option CoreAPI) (st : State) : State :=
  {| settings := settings st; _session_store := _session_store st;
     _session := _session st; _core_api := c;
     heap := heap st; trace := trace st |}.

Definition with_heap (h : gmap nat Session) (st : State) : State :=
  {| settings := settings st; _session_store := _session_store st;
     _session := _session st; _core_api := _core_api st;
     heap := h; trace := trace st |}.

Definition with_trace (t : list Event) (st : State) : State :=
  {| settings := settings st; _session_store := _session_store st;
     _session := _session st; _core_api := _core_api st;
     heap := heap st; trace := t |}.

(** The session object a reference denotes. *)
Definition deref (st : State) (ref : nat) : Session :=
  default blank_session (heap st !! ref).

Definition with_session_data (ref : nat) (d : gmap string value) (st : State)
  : State :=
  with_heap (<[ref := {| sess_data := d;
                         sess_has_save := sess_has_save (deref st ref);
                         sess_flush := sess_flush (deref st ref) |}]> (heap st))
            st.

(** ** The monad *)

Definition M (A : Type) : Type := State -> outcome A * State.

Definition ret {A} (a : A) : M A := fun st => (Return a, st).

Definition raise {A} (e : exn) : M A := fun st => (Raise e, st).

Definition bind {A B} (c : M A) (k : A -> M B) : M B :=
  fun st =>
    match c st with
    | (Return a, st') => k a st'
    | (Raise e, st') => (Raise e, st')
    end.

Notation "'do' x <- c ; k" := (bind c (fun x => k))
  (at level 10, x name, c at level 99, k at level 200).
Notation "c ;; k" := (bind c (fun _ => k))
  (at level 100, k at level 200, right associativity).

Definition get_state : M State := fun st => (Return st, st).

Definition modify (f : State -> State) : M unit := fun st => (Return tt, f st).

Definition emit (e : Event) : M unit :=
  modify (fun st => with_trace (trace st ++ [e]) st).

Definition when (b : bool) (c : M unit) : M unit := if b then c else ret tt.

(** [for x in xs: body] *)
Fixpoint for_each {A} (xs : list A) (body : A -> M unit) : M unit :=
  match xs with
  | [] => ret tt
  | x :: rest => body x ;; for_each rest body
  end.

(** [enumerate(xs)] *)
Definition enumerate {A} (xs : list A) : list (nat * A) :=
  zip (seq 0 (length xs)) xs.

(** ** Primitive accesses *)

(** [self.settings[key]] *)
Definition settings_getitem (key : string) : M value :=
  fun st =>
    match settings st !! key with
    | Some v => (Return v, st)
    | None => (Raise (KeyError key), st)
    end.

(** [self.settings.get(key, dflt)] *)
Definition settings_get (key : string) (dflt : value) : M value :=
  fun st => (Return (default dflt (settings st !! key)), st).

(** [self.settings[key] = v] *)
Definition settings_setitem (key : string) (v : value) : M unit :=
  modify (fun st => with_settings (<[key := v]> (settings st)) st).

(** [session[key] = data] *)
Definition session_setitem (ref : nat) (key : string) (data : value) : M unit :=
  emit (CallSession ref (SSetItem key data)) ;;
  modify (fun st =>
    with_session_data ref (<[key := data]> (sess_data (deref st ref))) st).

(** [session.get(key)] *)
Definition session_get (ref : nat) (key : string) : M value :=
  emit (CallSession ref (SGet key)) ;;
  do st <- get_state;
  ret (default VNone (sess_data (deref st ref) !! key)).

(** [session.keys()] *)
Definition session_keys (ref : nat) : M (list string) :=
  emit (CallSession ref SKeys) ;;
  do st <- get_state;
  ret (map fst (map_to_list (sess_data (deref st ref)))).

(** [del session[key]] *)
Definition session_delitem (ref : nat) (key : string) : M unit :=
  emit (CallSession ref (SDelItem key)) ;;
  modify (fun st =>
    with_session_data ref (delete key (sess_data (deref st ref))) st).

(** [session.save()]: the durable commit; the data held is not changed. *)
Definition session_save (ref : nat) : M unit :=
  emit (CallSession ref SSave).

(** [session.flush_crypto_blocks()], for a session exposing [flush]. *)
Definition session_flush_crypto_blocks (ref : nat)
    (flush : gmap string value -> gmap string value) : M unit :=
  emit (CallSession ref SFlush) ;;
  modify (fun st => with_session_data ref (flush (sess_data (deref st ref))) st).

(** ** InterfaceObject *)

Definition CRYPTO_PREFIX : string := "CRYPTO_BLOCK".
Definition USERNAME_PREFIX : string := "USERNAME".
Definition RUNNING_USER_PREFIX : string := "RUNNING_USER".

(** The keyword arguments of [_get_settings] and [_configure]; an argument
    left out is [None]. *)
Record Kwargs : Type := {
  kw_username : value;
  kw_password : value;
  kw_url : value;
  kw_no_time_descr : value;
  kw_api_request_timeout : value;
  kw_default_concession_descr : value;
  kw_remote_ip : value;
  kw_remote_site : value;
  kw_accept_language : value;
  kw_ext_start_session_url : value;
}.

Definition no_kwargs : Kwargs :=
  {| kw_username := VNone; kw_password := VNone; kw_url := VNone;
     kw_no_time_descr := VNone; kw_api_request_timeout := VNone;
     kw_default_concession_descr := VNone; kw_remote_ip := VNone;
     kw_remote_site := VNone; kw_accept_language := VNone;
     kw_ext_start_session_url := VNone |}.

(** The module [pyticketswitch.settings], whose values are not among the
    sources. *)
Record DefaultSettings : Type := {
  API_URL : value;
  EXT_START_SESSION_URL : value;
  API_REQUEST_TIMEOUT : value;
  NO_TIME_DESCR : value;
  DEFAULT_CONCESSION_DESCR : value;
}.

(** A transactional object, as far as the layer looks at it: the identity
    token its [_get_cache_key()] returns (a string: an event, order or
    transaction id). *)
Record TransactionalObject : Type := {
  _get_cache_key : string;
}.

(** The arguments [__init__] pops before it configures; [ia_configure] is
    what is left of [kwargs], if anything. *)
Record InitArgs : Type := {
  ia_session : option nat;
  ia_core_api : option CoreAPI;
  ia_settings : option (gmap string value);
  ia_session_store : option (gmap string value);
  ia_configure : option Kwargs;
}.

Definition _get_settings (a : Kwargs) : gmap string value :=
  <["username" := kw_username a]>
  (<["password" := kw_password a]>
  (<["remote_ip" := kw_remote_ip a]>
  (<["remote_site" := kw_remote_site a]>
  (<["accept_language" := kw_accept_language a]>
  (<["url" := kw_url a]>
  (<["ext_start_session_url" := kw_ext_start_session_url a]>
  (<["api_request_timeout" := kw_api_request_timeout a]>
  (<["no_time_descr" := kw_no_time_descr a]>
  (<["default_concession_descr" := kw_default_concession_descr a]> ∅))))))))).

(** Modelled from the spec: [CoreAPI(username=..., ...)], whose constructor
    is not among the sources.  A new client holds the eight arguments
    [_configure] passes; what it holds as its running user is left open
    ([running_user]). *)
Definition new_CoreAPI (running_user : value) (a : Kwargs) : CoreAPI :=
  {| api_username := kw_username a;
     api_password := kw_password a;
     api_url := kw_url a;
     api_remote_ip := kw_remote_ip a;
     api_remote_site := kw_remote_site a;
     api_accept_language := kw_accept_language a;
     api_ext_start_session_url := kw_ext_start_session_url a;
     api_request_timeout := kw_api_request_timeout a;
     api_running_user := running_user |}.

(** ['{0}_{1}_{2}'.format(USERNAME_PREFIX, remote_ip, remote_site)] *)
Definition _get_username_session_key (remote_ip remote_site : value) : string :=
  USERNAME_PREFIX ++ "_" ++ str remote_ip ++ "_" ++ str remote_site.

Definition _get_running_user_session_key (username : value) : string :=
  RUNNING_USER_PREFIX ++ "_" ++ str username.

(** The strings the two crypto key methods format. *)
Definition crypto_session_key (username : value) (method_name : string)
  : string :=
  CRYPTO_PREFIX ++ "_" ++ str username ++ "_" ++ method_name.

Definition crypto_object_key (username : value) (method_name : string)
    (interface_object : TransactionalObject) : string :=
  crypto_session_key username method_name ++ "_"
    ++ _get_cache_key interface_object.

(** [x if x else dflt] for the [if not x: x = dflt] lines of [_configure] *)
Definition or_default (x dflt : value) : value :=
  if truthy x then x else dflt.

(** The number of remote calls made so far. *)
Definition is_remote_call (e : Event) : bool :=
  match e with
  | CallStartSession => true
  | _ => false
  end.

Definition remote_calls (t : list Event) : nat :=
  length (List.filter is_remote_call t).

Section InterfaceObject.

Variable default_settings : DefaultSettings.

(** Modelled from the spec: the constructor of [CoreAPI] is not among the
    sources.  What a client that has just been constructed holds as its
    running user is a parameter. *)
Variable initial_running_user : value.

(** Modelled from the spec: [CoreAPI.start_session] is not among the
    sources.  The remote side is a function of the number of calls made
    before and of the client object; it gives the crypto block returned
    (or the error raised) and the client object as the call leaves it,
    with the [username] and [running_user] the remote side established. *)
Variable remote_start_session : nat -> CoreAPI -> outcome value * CoreAPI.

(** [self.get_core_api().start_session()] *)
Definition core_api_start_session : M value :=
  fun st =>
    match _core_api st with
    | None => (Raise (AttributeError "start_session"), st)
    | Some api =>
        let st1 := with_trace (trace st ++ [CallStartSession]) st in
        let '(r, api') := remote_start_session (remote_calls (trace st)) api in
        (r, with_core_api (Some api') st1)
    end.

(** [self.get_core_api().<attr>] *)
Definition core_api_attr (attr : string) (f : CoreAPI -> value) : M value :=
  fun st =>
    match _core_api st with
    | None => (Raise (AttributeError attr), st)
    | Some api => (Return (f api), st)
    end.

Definition _password_is_set : M bool :=
  do p <- settings_get "password" VNone;
  ret (truthy p).

Definition _store_data (key : string) (data : value) (save_session : bool)
  : M unit :=
  emit (LogStore key data) ;;
  modify (fun st => with_session_store (<[key := data]> (_session_store st)) st) ;;
  do st <- get_state;
  match _session st with
  | None => ret tt
  | Some ref =>
      session_setitem ref key data ;;
      when (save_session && sess_has_save (deref st ref)) (session_save ref)
  end.

Definition _retrieve_data (key : string) : M value :=
  do st <- get_state;
  let data := default VNone (_session_store st !! key) in
  do data <- match _session st with
             | Some ref =>
                 if negb (truthy data) then session_get ref key else ret data
             | None => ret data
             end;
  emit (LogRetrieve key data) ;;
  ret data.

Definition _get_cached_username (remote_ip remote_site : value) : M value :=
  _retrieve_data (_get_username_session_key remote_ip remote_site).

Definition _set_cached_username (username remote_ip remote_site : value)
  : M unit :=
  _store_data (_get_username_session_key remote_ip remote_site) username true.

Definition _get_cached_running_user (username : value) : M value :=
  _retrieve_data (_get_running_user_session_key username).

Definition _set_cached_running_user (username running_user : value) : M unit :=
  _store_data (_get_running_user_session_key username) running_user true.

(** The key is formatted from the arguments alone; the event records, for
    the observer, what [settings] holds as username at that moment. *)
Definition _get_crypto_session_key (username : value) (method_name : string)
  : M string :=
  do st <- get_state;
  emit (KeyDerived (settings st !! "username")
                   (crypto_session_key username method_name)) ;;
  ret (crypto_session_key username method_name).

Definition _clear_crypto_blocks : M unit :=
  emit LogClear ;;
  do st <- get_state;
  for_each (map fst (map_to_list (_session_store st))) (fun key =>
    when (startswith key CRYPTO_PREFIX)
      (modify (fun s => with_session_store (delete key (_session_store s)) s))) ;;
  match _session st with
  | None => ret tt
  | Some ref =>
      match sess_flush (deref st ref) with
      | Some flush => session_flush_crypto_blocks ref flush
      | None =>
          do keys <- session_keys ref;
          for_each keys (fun key =>
            when (startswith key CRYPTO_PREFIX) (session_delitem ref key))
      end
  end.

Definition _set_crypto_block (crypto_block : value) (method_name : string)
  : M unit :=
  do u <- settings_getitem "username";
  do session_key <- _get_crypto_session_key u method_name;
  _store_data session_key crypto_block true.

Definition _start_session : M value :=
  do crypto_block <- core_api_start_session;
  do username <- core_api_attr "username" api_username;
  do su <- settings_getitem "username";
  (if negb (truthy su) || ne username su then
     do remote_ip <- settings_getitem "remote_ip";
     do remote_site <- settings_getitem "remote_site";
     settings_setitem "username" username ;;
     _set_cached_username username remote_ip remote_site ;;
     do running_user <- core_api_attr "running_user" api_running_user;
     _set_cached_running_user username running_user
   else ret tt) ;;
  when (truthy crypto_block) (_set_crypto_block crypto_block "start_session") ;;
  ret crypto_block.

Definition get_username : M value :=
  do su <- settings_getitem "username";
  (if negb (truthy su) then
     do remote_ip <- settings_getitem "remote_ip";
     do remote_site <- settings_getitem "remote_site";
     do username <- _get_cached_username remote_ip remote_site;
     if negb (truthy username) then _start_session ;; ret tt else ret tt
   else ret tt) ;;
  settings_getitem "username".

(** One disjunct of the test of [_configure]: the key is in [settings],
    its value is true and the new value is not equal to it. *)
Definition setting_differs (s : gmap string value) (key : string) (v : value)
  : bool :=
  match s !! key with
  | Some old => truthy old && ne v old
  | None => false
  end.

Definition _configure (a : Kwargs) : M unit :=
  do username <-
    (if negb (truthy (kw_username a)) && truthy (kw_remote_ip a)
          && truthy (kw_remote_site a)
     then _get_cached_username (kw_remote_ip a) (kw_remote_site a)
     else ret (kw_username a));
  do st <- get_state;
  when (setting_differs (settings st) "username" username
        || setting_differs (settings st) "remote_ip" (kw_remote_ip a)
        || setting_differs (settings st) "remote_site" (kw_remote_site a))
    _clear_crypto_blocks ;;
  let a' :=
    {| kw_username := username;
       kw_password := kw_password a;
       kw_url := or_default (kw_url a) (API_URL default_settings);
       kw_no_time_descr :=
         or_default (kw_no_time_descr a) (NO_TIME_DESCR default_settings);
       kw_api_request_timeout :=
         or_default (kw_api_request_timeout a)
                    (API_REQUEST_TIMEOUT default_settings);
       kw_default_concession_descr :=
         or_default (kw_default_concession_descr a)
                    (DEFAULT_CONCESSION_DESCR default_settings);
       kw_remote_ip := kw_remote_ip a;
       kw_remote_site := kw_remote_site a;
       kw_accept_language := kw_accept_language a;
       kw_ext_start_session_url :=
         or_default (kw_ext_start_session_url a)
                    (EXT_START_SESSION_URL default_settings) |} in
  modify (with_settings (_get_settings a')) ;;
  modify (with_core_api (Some (new_CoreAPI initial_running_user a'))).

(** The constructor of [InterfaceObject], in a world with the given session
    objects and history. *)
Definition __init__ (a : InitArgs) (h : gmap nat Session) (t : list Event)
  : outcome unit * State :=
  let st :=
    {| settings := default (_get_settings no_kwargs) (ia_settings a);
       _session_store := default ∅ (ia_session_store a);
       _session := ia_session a;
       _core_api := ia_core_api a;
       heap := h;
       trace := t |} in
  match ia_configure a with
  | Some kw => _configure kw st
  | None => (Return tt, st)
  end.

Definition get_crypto_block (method_name : string) (password_required : bool)
  : M value :=
  do pw <- (if password_required then ret false else _password_is_set);
  if password_required || (negb password_required && negb pw) then
    do u <- settings_get "username" (VBool false);
    do start_session_crypto <-
      (if negb (truthy u) then _start_session else ret VNone);
    do su <- settings_getitem "username";
    do session_key <- _get_crypto_session_key su method_name;
    do crypto_block <- _retrieve_data session_key;
    if negb (truthy crypto_block) && String.eqb method_name "start_session"
    then
      if truthy start_session_crypto then ret start_session_crypto
      else _start_session
    else ret crypto_block
  else ret VNone.

Definition _get_crypto_object_key (username : value) (method_name : string)
    (interface_object : TransactionalObject) : M string :=
  do k <- _get_crypto_session_key username method_name;
  ret (k ++ "_" ++ _get_cache_key interface_object).

Definition _set_crypto_for_objects (crypto_block : value)
    (method_name : string) (interface_objects : list TransactionalObject)
  : M unit :=
  for_each (enumerate interface_objects) (fun io =>
    do u <- settings_getitem "username";
    do key <- _get_crypto_object_key u method_name (snd io);
    let save_session :=
      (Z.of_nat (fst io) =? Z.of_nat (length interface_objects) - 1)%Z in
    _store_data key crypto_block save_session).

Definition _set_crypto_for_object (crypto_block : value)
    (method_name : string) (interface_object : TransactionalObject)
  : M unit :=
  do u <- settings_getitem "username";
  do key <- _get_crypto_object_key u method_name interface_object;
  _store_data key crypto_block true.

Definition _get_crypto_block_for_object (method_name : string)
    (interface_object : TransactionalObject) : M value :=
  do u <- settings_get "username" (VBool false);
  (if negb (truthy u) then _start_session ;; ret tt else ret tt) ;;
  do su <- settings_getitem "username";
  do key <- _get_crypto_object_key su method_name interface_object;
  _retrieve_data key.

End InterfaceObject.

(** ** What the two storage primitives compute

    Closed forms of [_retrieve_data] and [_store_data], proved equal to the
    embedded methods below ([_retrieve_data_run], [_store_data_run]) and used
    to state their effect. *)

(** The data held for [key] by the session the instance is attached to. *)
Definition session_lookup (st : State) (key : string) : option value :=
  match _session st with
  | Some ref => sess_data (deref st ref) !! key
  | None => None
  end.

Definition retrieved (st : State) (key : string) : value :=
  let data := default VNone (_session_store st !! key) in
  match _session st with
  | Some ref =>
      if truthy data then data
      else default VNone (sess_data (deref st ref) !! key)
  | None => data
  end.

Definition retrieve_events (st : State) (key : string) : list Event :=
  let data := default VNone (_session_store st !! key) in
  match _session st with
  | Some ref =>
      if truthy data then [LogRetrieve key data]
      else [CallSession ref (SGet key); LogRetrieve key (retrieved st key)]
  | None => [LogRetrieve key data]
  end.

Definition store_events (st : State) (key : string) (data : value)
    (save_session : bool) : list Event :=
  match _session st with
  | None => [LogStore key data]
  | Some ref =>
      [LogStore key data; CallSession ref (SSetItem key data)]
        ++ (if save_session && sess_has_save (deref st ref)
            then [CallSession ref SSave] else [])
  end.

Definition stored (key : string) (data : value) (save_session : bool)
    (st : State) : State :=
  let st1 := with_session_store (<[key := data]> (_session_store st)) st in
  with_trace (trace st ++ store_events st key data save_session)
    match _session st with
    | None => st1
    | Some ref =>
        with_session_data ref (<[key := data]> (sess_data (deref st ref))) st1
    end.

(** A store holds no crypto block. *)
Definition no_crypto_block (m : gmap string value) : Prop :=
  forall key, startswith key CRYPTO_PREFIX = true -> m !! key = None.

(** The durable commits among some events. *)
Definition is_save (e : Event) : bool :=
  match e with
  | CallSession _ SSave => true
  | _ => false
  end.

Definition saves (evs : list Event) : nat := length (List.filter is_save evs).

(** What the two loops of [_clear_crypto_blocks] leave of a dict: the keys
    of [keys] are visited in turn and those with the prefix deleted. *)
Definition purge (keys : list string) (m : gmap string value)
  : gmap string value :=
  fold_left (fun m key =>
               if startswith key CRYPTO_PREFIX then delete key m else m)
            keys m.

(** [d.keys()] *)
Definition dict_keys (m : gmap string value) : list string :=
  map fst (map_to_list m).

(** The [del session[key]] calls of the second loop. *)
Definition purge_calls (ref : nat) (keys : list string) : list Event :=
  map (fun key => CallSession ref (SDelItem key))
      (List.filter (fun key => startswith key CRYPTO_PREFIX) keys).

(** The state at the moment a setter has derived its key. *)
Definition key_derived (username : value) (method_name : string) (st : State)
  : State :=
  with_trace (trace st ++ [KeyDerived (Some username)
                             (crypto_session_key username method_name)]) st.

(** What one write of [_set_crypto_for_objects] shows to the observer of
    an instance attached to session [ref]: the key derivation, the log line
    of [_store_data], the write to the session and, when [commit] is set,
    the durable commit. *)
Definition object_write_events (ref : nat) (username : value)
    (method_name : string) (crypto_block : value) (commit : bool)
    (obj : TransactionalObject) : list Event :=
  [KeyDerived (Some username) (crypto_session_key username method_name);
   LogStore (crypto_object_key username method_name obj) crypto_block;
   CallSession ref
     (SSetItem (crypto_object_key username method_name obj) crypto_block)]
  ++ (if commit then [CallSession ref SSave] else []).

(** The body of the loop of [_set_crypto_for_objects], for a batch of [n]
    objects. *)
Definition set_crypto_for_objects_body (crypto_block : value)
    (method_name : string) (n : nat) (io : nat * TransactionalObject) : M unit :=
  do u <- settings_getitem "username";
  do key <- _get_crypto_object_key u method_name (snd io);
  let save_session := (Z.of_nat (fst io) =? Z.of_nat n - 1)%Z in
  _store_data key crypto_block save_session.

(** The state a successful [_start_session] leaves, from the state [st1] just
    after the remote call: [refresh] holds the [remote_ip] and [remote_site]
    of the settings when the username established by the remote side is
    adopted and cached, and is [None] when the settings already held it. *)
Definition bootstrapped (crypto_block username running_user : value)
    (refresh : option (value * value)) (st1 : State) : State :=
  let st4 :=
    match refresh with
    | Some (remote_ip, remote_site) =>
        stored (_get_running_user_session_key username) running_user true
          (stored (_get_username_session_key remote_ip remote_site) username true
             (with_settings (<["username" := username]> (settings st1)) st1))
    | None => st1
    end in
  if truthy crypto_block
  then stored (crypto_session_key username "start_session") crypto_block true
         (key_derived username "start_session" st4)
  else st4.

(** The state just after the remote call answered, leaving the client as
    [api']. *)
Definition called (api' : CoreAPI) (st : State) : State :=
  with_core_api (Some api') (with_trace (trace st ++ [CallStartSession]) st).

(** ** What [_configure] works with *)

(** [_configure] looks for a cached username when none is given and both
    the network origin and the requesting site are. *)
Definition looks_up_username (a : Kwargs) : bool :=
  negb (truthy (kw_username a)) && truthy (kw_remote_ip a)
  && truthy (kw_remote_site a).

(** The username a reconfiguration supplies: the one given or, failing it,
    the one cached for the network origin and requesting site given. *)
Definition supplied_username (a : Kwargs) (st : State) : value :=
  if looks_up_username a
  then retrieved st (_get_username_session_key (kw_remote_ip a) (kw_remote_site a))
  else kw_username a.

(** The state once the username is known. *)
Definition looked_up (a : Kwargs) (st : State) : State :=
  if looks_up_username a
  then with_trace
         (trace st ++ retrieve_events st
            (_get_username_session_key (kw_remote_ip a) (kw_remote_site a)))
         st
  else st.

(** The test of [_configure]: one of username, network origin and
    requesting site was configured before and is supplied with another
    value now. *)
Definition identity_differs (a : Kwargs) (st : State) : bool :=
  setting_differs (settings st) "username" (supplied_username a st)
  || setting_differs (settings st) "remote_ip" (kw_remote_ip a)
  || setting_differs (settings st) "remote_site" (kw_remote_site a).

(** The arguments with the username resolved and the defaults filled in. *)
Definition adopted (d : DefaultSettings) (a : Kwargs) (username : value)
  : Kwargs :=
  {| kw_username := username;
     kw_password := kw_password a;
     kw_url := or_default (kw_url a) (API_URL d);
     kw_no_time_descr := or_default (kw_no_time_descr a) (NO_TIME_DESCR d);
     kw_api_request_timeout :=
       or_default (kw_api_request_timeout a) (API_REQUEST_TIMEOUT d);
     kw_default_concession_descr :=
       or_default (kw_default_concession_descr a) (DEFAULT_CONCESSION_DESCR d);
     kw_remote_ip := kw_remote_ip a;
     kw_remote_site := kw_remote_site a;
     kw_accept_language := kw_accept_language a;
     kw_ext_start_session_url :=
       or_default (kw_ext_start_session_url a) (EXT_START_SESSION_URL d) |}.

(** The new settings and client replace the old ones. *)
Definition adopt (d : DefaultSettings) (running_user : value) (a : Kwargs)
    (username : value) (st : State) : State :=
  with_core_api (Some (new_CoreAPI running_user (adopted d a username)))
    (with_settings (_get_settings (adopted d a username)) st).

(** The arguments of an independently constructed instance: a reference to
    the host session and configuration keywords, nothing handed over from
    another instance. *)
Definition attached_to (ref : nat) (a : Kwargs) : InitArgs :=
  {| ia_session := Some ref; ia_core_api := None; ia_settings := None;
     ia_session_store := None; ia_configure := Some a |}.


(** What a dict holds for [key] after a successful [_start_session], where it
    held [old] before. *)
Definition written (crypto_block username running_user : value)
    (refresh : option (value * value)) (old : option value) (key : string)
  : option value :=
  if truthy crypto_block
     && bool_decide (crypto_session_key username "start_session" = key)
  then Some crypto_block
  else match refresh with
       | Some (remote_ip, remote_site) =>
           if bool_decide (_get_running_user_session_key username = key)
           then Some running_user
           else if bool_decide
                     (_get_username_session_key remote_ip remote_site = key)
                then Some username
                else old
       | None => old
       end.



(** The settings hold a resolved username. *)
Definition username_resolved (st : State) : Prop :=
  exists username,
    settings st !! "username" = Some username /\ truthy username = true.

(** The part of [get_crypto_block] that follows the bootstrap made for a
    missing username, [start_session_crypto] being what that bootstrap
    returned ([None] when there was none). *)
Definition get_crypto_block_lookup
    (remote_start_session : nat -> CoreAPI -> outcome value * CoreAPI)
    (method_name : string) (start_session_crypto : value) : M value :=
  do su <- settings_getitem "username";
  do session_key <- _get_crypto_session_key su method_name;
  do crypto_block <- _retrieve_data session_key;
  if negb (truthy crypto_block) && String.eqb method_name "start_session"
  then
    if truthy start_session_crypto then ret start_session_crypto
    else _start_session remote_start_session
  else ret crypto_block.


(** The part of [_get_crypto_block_for_object] that follows the bootstrap
    made for a missing username. *)
Definition get_crypto_block_for_object_lookup (method_name : string)
    (interface_object : TransactionalObject) : M value :=
  do su <- settings_getitem "username";
  do key <- _get_crypto_object_key su method_name interface_object;
  _retrieve_data key.

(** A value was configured under [key] before and [v] is another one. *)
Definition setting_changes (s : gmap string value) (key : string) (v : value)
  : Prop :=
  exists old, s !! key = Some old /\ truthy old = true /\ v <> old.

(** A reconfiguration supplies a username, a network origin or a requesting
    site that is not the one configured before. *)
Definition identity_changes (a : Kwargs) (st : State) : Prop :=
  setting_changes (settings st) "username" (supplied_username a st)
  \/ setting_changes (settings st) "remote_ip" (kw_remote_ip a)
  \/ setting_changes (settings st) "remote_site" (kw_remote_site a).

(** The bulk operation of the session the instance is attached to, if the
    session exposes one, leaves no crypto block behind. *)
Definition flush_clears (st : State) : Prop :=
  forall ref flush,
    _session st = Some ref ->
    sess_flush (deref st ref) = Some flush ->
    no_crypto_block (flush (sess_data (deref st ref))).

(** No crypto block is held for the instance, locally or by its session. *)
Definition holds_no_crypto_block (st : State) : Prop :=
  no_crypto_block (_session_store st) /\
  forall key, startswith key CRYPTO_PREFIX = true -> session_lookup st key = None.

(** The remote side hands out a crypto block whenever its [start_session]
    succeeds. *)
Definition remote_gives_block
    (remote_start_session : nat -> CoreAPI -> outcome value * CoreAPI) : Prop :=
  forall n api crypto_block api',
    remote_start_session n api = (Return crypto_block, api') ->
    truthy crypto_block = true.

(** ** The running user *)

Section RunningUser.

Variable remote_start_session : nat -> CoreAPI -> outcome value * CoreAPI.

(** [self.get_core_api().running_user = running_user] *)
Definition core_api_set_running_user (running_user : value) : M unit :=
  fun st =>
    match _core_api st with
    | None => (Raise (AttributeError "running_user"), st)
    | Some api =>
        (Return tt,
         with_core_api
           (Some {| api_username := api_username api;
                    api_password := api_password api;
                    api_url := api_url api;
                    api_remote_ip := api_remote_ip api;
                    api_remote_site := api_remote_site api;
                    api_accept_language := api_accept_language api;
                    api_ext_start_session_url := api_ext_start_session_url api;
                    api_request_timeout := api_request_timeout api;
                    api_running_user := running_user |})
           st)
    end.

Definition _get_running_user : M value :=
  do ru <- core_api_attr "running_user" api_running_user;
  (if negb (truthy ru) then
     do username <- get_username remote_start_session;
     do running_user <- _get_cached_running_user username;
     if truthy running_user then core_api_set_running_user running_user
     else _start_session remote_start_session ;; ret tt
   else ret tt) ;;
  core_api_attr "running_user" api_running_user.

End RunningUser.

(** The arguments of an instance constructed with no keyword at all. *)
Definition bare : InitArgs :=
  {| ia_session := None; ia_core_api := None; ia_settings := None;
     ia_session_store := None; ia_configure := None |}.

(** * pyticketswitch/util.py *)

Module Util.

(** The exceptions these helpers raise by themselves. *)
Inductive error : Type :=
| ValueError
| UnboundLocalError.

Inductive result (A : Type) : Type :=
| Ok (a : A)
| Error (e : error).
Arguments Ok {A} a.
Arguments Error {A} e.

(** ** Yes and no *)

Definition resolve_boolean (yes_no_string : value) : value :=
  if truthy yes_no_string then
    if bool_decide (yes_no_string = VStr "yes") then VBool true
    else VBool false
  else VNone.

(** [boolean is True] holds of the object [True] alone. *)
Definition boolean_to_yes_no (boolean : value) : value :=
  if bool_decide (boolean = VBool true) then VStr "yes" else VStr "no".

(** ** Dates

    A [datetime.date] is taken by its proleptic Gregorian ordinal (what
    [date.toordinal()] gives), so that the difference of two dates is a
    number of days and adding a [timedelta] of [i] days adds [i]. *)

(** [range(n)], a list in Python 2 *)
Definition py_range (n : Z) : list Z := map Z.of_nat (seq 0 (Z.to_nat n)).

Definition dates_in_range (first_date last_date : Z) : list Z :=
  let delta_days := (last_date - first_date)%Z in
  fold_left (fun (dates : list Z) i => (dates ++ [(first_date + i)%Z])%list)
            (py_range (delta_days + 1)) [].

(** ** The date slugs *)

(** An entry of [settings.DATE_SLUG_MAP], a table that is not among the
    sources: a dict with the keys ['auto_date'] and ['slug']. *)
Record Mapping : Type := {
  auto_date : value;
  slug : value;
}.

Section DateSlugs.

Variable DATE_SLUG_MAP : list Mapping.

(** [slug] is bound only when [auto_date] is true; the [return] raises
    otherwise. *)
Definition auto_date_to_slug (an_auto_date : value) : result value :=
  if truthy an_auto_date then
    Ok (fold_left (fun found mapping =>
                     if bool_decide (an_auto_date = auto_date mapping)
                     then slug mapping else found)
                  DATE_SLUG_MAP VNone)
  else Error UnboundLocalError.

Definition slug_to_auto_date (a_slug : value) : result value :=
  if truthy a_slug then
    Ok (fold_left (fun found mapping =>
                     if bool_decide (a_slug = slug mapping)
                     then auto_date mapping else found)
                  DATE_SLUG_MAP VNone)
  else Error UnboundLocalError.

End DateSlugs.

(** ** The day mask *)

(** The digits of ['{0:b}'.format(p)], most significant first, before
    [acc]. *)
Fixpoint binary_digits (p : positive) (acc : list ascii) : list ascii :=
  match p with
  | xH => "1"%char :: acc
  | xO q => binary_digits q ("0"%char :: acc)
  | xI q => binary_digits q ("1"%char :: acc)
  end.

(** Zero padding on the left up to [width] characters. *)
Definition zero_pad (width : nat) (digits : list ascii) : list ascii :=
  (replicate (width - length digits) "0"%char ++ digits)%list.

(** ['{0:07b}'.format(n)]: the sign, if any, comes first and counts in the
    width. *)
Definition format_07b (n : Z) : string :=
  string_of_list_ascii
    match n with
    | Z0 => zero_pad 7 ["0"%char]
    | Zpos p => zero_pad 7 (binary_digits p [])
    | Zneg p => "-"%char :: zero_pad 6 (binary_digits p [])
    end.

(** [int(x)] for a string [x] of one character *)
Definition int_of_char (x : ascii) : result Z :=
  let n := nat_of_ascii x in
  if (48 <=? n)%nat && (n <=? 57)%nat then Ok (Z.of_nat (n - 48))
  else Error ValueError.

(** [[f(x) for x in xs]], for an [f] that may raise *)
Fixpoint comprehension {A B} (f : A -> result B) (xs : list A)
  : result (list B) :=
  match xs with
  | [] => Ok []
  | x :: rest =>
      match f x with
      | Error e => Error e
      | Ok y =>
          match comprehension f rest with
          | Error e => Error e
          | Ok ys => Ok (y :: ys)
          end
      end
  end.

(** The mask is taken as the integer [int(day_mask)] gives. *)
Definition day_mask_to_bool_list (day_mask : Z) : result (list bool) :=
  let bit_str := format_07b day_mask in
  let bit_str_list := list_ascii_of_string bit_str in
  comprehension
    (fun x => match int_of_char x with
              | Ok i => Ok (negb (i =? 0)%Z)
              | Error e => Error e
              end)
    (rev bit_str_list).

(** The bits of [p], least significant first. *)
Fixpoint lsb_bits (p : positive) : list bool :=
  match p with
  | xH => [true]
  | xO q => false :: lsb_bits q
  | xI q => true :: lsb_bits q
  end.

Definition bit_char (b : bool) : ascii := if b then "1"%char else "0"%char.

(** ** XML and dictionaries *)

(** The values these conversions handle.  A dict is the list of its items
    in the order [iteritems] yields them; its keys are pairwise different.
    Any value that is no dict, list, boolean, string or [None] (a number,
    say) is taken by the text [unicode()] gives for it. *)
#[local] Set Warnings "-register-all".

Inductive pyobj : Type :=
| PNone
| PBool (b : bool)
| PStr (s : string)
| POther (repr : string)
| PList (l : list pyobj)
| PDict (d : list (string * pyobj)).

(** An [xml.etree] element: tag, text and children. *)
Inductive Element : Type :=
| mkElement (tag : string) (text : option string) (children : list Element).

Definition tag (e : Element) : string :=
  match e with mkElement t _ _ => t end.

Definition text (e : Element) : option string :=
  match e with mkElement _ x _ => x end.

Definition children (e : Element) : list Element :=
  match e with mkElement _ _ cs => cs end.

(** [key in d], [d[key]] *)
Fixpoint dict_get (d : list (string * pyobj)) (key : string) : option pyobj :=
  match d with
  | [] => None
  | (k, v) :: rest => if String.eqb k key then Some v else dict_get rest key
  end.

(** [d[key] = v]: the item is replaced where it is, or added. *)
Fixpoint dict_set (d : list (string * pyobj)) (key : string) (v : pyobj)
  : list (string * pyobj) :=
  match d with
  | [] => [(key, v)]
  | (k, old) :: rest =>
      if String.eqb k key then (k, v) :: rest
      else (k, old) :: dict_set rest key v
  end.

Definition _add_xml_elem_to_dict (key : string) (value : pyobj)
    (ret_dict : list (string * pyobj)) : list (string * pyobj) :=
  match dict_get ret_dict key with
  | Some old =>
      let child_list := match old with
                        | PList l => l
                        | _ => [old]
                        end in
      dict_set ret_dict key (PList (child_list ++ [value])%list)
  | None => dict_set ret_dict key value
  end.

(** [child.text] as a value *)
Definition text_value (x : option string) : pyobj :=
  match x with
  | Some s => PStr s
  | None => PNone
  end.

Fixpoint create_dict_from_xml_element (root : Element)
  : list (string * pyobj) :=
  match root with
  | mkElement _ _ cs =>
      (fix loop (cs : list Element) (ret_dict : list (string * pyobj))
         : list (string * pyobj) :=
         match cs with
         | [] => ret_dict
         | child :: rest =>
             loop rest
               match child with
               | mkElement t x [] =>
                   _add_xml_elem_to_dict t (text_value x) ret_dict
               | mkElement t _ (_ :: _) =>
                   _add_xml_elem_to_dict
                     t (PDict (create_dict_from_xml_element child)) ret_dict
               end
         end) cs []
  end.

(** What [_recur_xml_dict] ([in_list] unset) and [_recur_xml_list] ([in_list]
    set) append to [root] for one value under [key].  The two functions
    differ on a list only: met in a list it leaves an empty element behind
    before its own values follow. *)
Fixpoint recur_xml_value (in_list : bool) (key : string) (value : pyobj)
  : list Element :=
  match value with
  | PDict d =>
      [mkElement key None
         ((fix items (d : list (string * pyobj)) : list Element :=
             match d with
             | [] => []
             | (k, v) :: rest => (recur_xml_value false k v ++ items rest)%list
             end) d)]
  | PList l =>
      ((if in_list then [mkElement key None []] else [])
         ++ (fix elems (l : list pyobj) : list Element :=
               match l with
               | [] => []
               | v :: rest => (recur_xml_value true key v ++ elems rest)%list
               end) l)%list
  | PBool b => if b then [mkElement key None []] else []
  | PNone => [mkElement key (Some "None") []]
  | PStr s => [mkElement key (Some s) []]
  | POther repr => [mkElement key (Some repr) []]
  end.

Definition append_children (root : Element) (new : list Element) : Element :=
  mkElement (tag root) (text root) (children root ++ new)%list.

Definition _recur_xml_dict (root : Element) (arg_dict : list (string * pyobj))
  : Element :=
  append_children root
    (flat_map (fun kv => recur_xml_value false (fst kv) (snd kv)) arg_dict).

Definition _recur_xml_list (root : Element) (key : string)
    (arg_list : list pyobj) : Element :=
  append_children root (flat_map (recur_xml_value true key) arg_list).

Definition create_xml_from_dict (root_name : string)
    (arg_dict : list (string * pyobj)) : Element :=
  _recur_xml_dict (mkElement root_name None []) arg_dict.

(** The value [create_dict_from_xml_element] stores for a child. *)
Definition element_value (child : Element) : pyobj :=
  match children child with
  | [] => text_value (text child)
  | _ :: _ => PDict (create_dict_from_xml_element child)
  end.

(** What a dict holds for a tag that the values [vs] were added under. *)
Definition collected (vs : list pyobj) : option pyobj :=
  match vs with
  | [] => None
  | [v] => Some v
  | _ => Some (PList vs)
  end.

(** The values that come back as they went: strings, and dicts that are
    not empty and hold such values. *)
Fixpoint plain (v : pyobj) : bool :=
  match v with
  | PStr _ => true
  | PDict d =>
      match d with [] => false | _ :: _ => true end
      && bool_decide (NoDup (map fst d))
      && (fix all (d : list (string * pyobj)) : bool :=
            match d with
            | [] => true
            | (_, v) :: rest => plain v && all rest
            end) d
  | _ => false
  end.

End Util.

(** A plain value is written as one element, tagged with its key and
    holding the value. *)
Definition written_back (v : Util.pyobj) : Prop :=
  Util.plain v = true ->
  forall in_list key, exists e,
    Util.recur_xml_value in_list key v = [e]
    /\ Util.tag e = key /\ Util.element_value e = v.

(** What [create_dict_from_xml_element] gives for the key of an item of
    value [v] that [create_xml_from_dict] wrote. *)
Definition comes_back (v : Util.pyobj) : option Util.pyobj :=
  Util.collected (map Util.element_value (Util.recur_xml_value false "" v)).


(** ** Concrete instances

    Small worlds on which the statements below are exercised. *)

Module Ex.

Definition kw (username password remote_ip remote_site : value) : Kwargs :=
  {| kw_username := username; kw_password := password; kw_url := VNone;
     kw_no_time_descr := VNone; kw_api_request_timeout := VNone;
     kw_default_concession_descr := VNone; kw_remote_ip := remote_ip;
     kw_remote_site := remote_site; kw_accept_language := VNone;
     kw_ext_start_session_url := VNone |}.

Definition defaults : DefaultSettings :=
  {| API_URL := VStr "https://api.example/";
     EXT_START_SESSION_URL := VStr "https://ext.example/";
     API_REQUEST_TIMEOUT := VStr "120";
     NO_TIME_DESCR := VStr "TBC";
     DEFAULT_CONCESSION_DESCR := VStr "Standard" |}.

(** A session with [save] and without [flush_crypto_blocks]. *)
Definition session (d : gmap string value) : Session :=
  {| sess_data := d; sess_has_save := true; sess_flush := None |}.

(** An instance with the given settings and local store, attached to
    session object [0] when [d] is given. *)
Definition instance (a : Kwargs) (local : gmap string value)
    (d : option (gmap string value)) : State :=
  {| settings := _get_settings a;
     _session_store := local;
     _session := match d with Some _ => Some 0%nat | None => None end;
     _core_api := Some (new_CoreAPI VNone a);
     heap := match d with Some d => {[ 0%nat := session d ]} | None => ∅ end;
     trace := [] |}.

(** The remote side establishes [username] and a running user on the
    client and answers with [crypto_block]. *)
Definition establish (username crypto_block : value) (api : CoreAPI)
  : outcome value * CoreAPI :=
  (Return crypto_block,
   {| api_username := username;
      api_password := api_password api;
      api_url := api_url api;
      api_remote_ip := api_remote_ip api;
      api_remote_site := api_remote_site api;
      api_accept_language := api_accept_language api;
      api_ext_start_session_url := api_ext_start_session_url api;
      api_request_timeout := api_request_timeout api;
      api_running_user := VObj "<RunningUser>" |}).

(** A remote side that issues the guest account [guest] with no crypto
    block. *)
Definition remote_no_block (n : nat) (api : CoreAPI) : outcome value * CoreAPI :=
  establish (VStr "guest") VNone api.

(** A remote side that keeps the user of the client, or issues [guest],
    and answers with a fresh crypto block. *)
Definition remote_block (n : nat) (api : CoreAPI) : outcome value * CoreAPI :=
  establish (or_default (api_username api) (VStr "guest")) (VStr "fresh-token")
            api.

(** A remote side that is down. *)
Definition remote_down (n : nat) (api : CoreAPI) : outcome value * CoreAPI :=
  (Raise (RemoteError "timed out"), api).

Definition basket_a : TransactionalObject := {| _get_cache_key := "basket-a" |}.
Definition basket_b : TransactionalObject := {| _get_cache_key := "basket-b" |}.

(** An instance of [alice] attached to an empty session. *)
Definition alice : State :=
  instance (kw (VStr "alice") VNone VNone VNone) ∅ (Some ∅).

(** An anonymous visitor of a shop, known by network origin and site. *)
Definition visitor : Kwargs :=
  kw VNone VNone (VStr "192.0.2.7") (VStr "shop.example").

(** A host with one empty session object. *)
Definition host : gmap nat Session := {[ 0%nat := session ∅ ]}.

(** The first instance of the visitor, and the world after it bootstrapped. *)
Definition first_visit : State :=
  snd (__init__ defaults VNone (attached_to 0 visitor) host []).



(** An instance with nothing configured but its client, attached to an
    empty session. *)
Definition anonymous : State := instance no_kwargs ∅ (Some ∅).

(** An instance of [alice] that holds crypto blocks for two methods, locally
    and in its session. *)
Definition alice_blocks : gmap string value :=
  {[ "CRYPTO_BLOCK_alice_purchase" := VStr "tok-purchase";
     "CRYPTO_BLOCK_alice_start_session" := VStr "tok-start";
     "USERNAME_None_None" := VStr "alice" ]}.

Definition alice_cached : State :=
  instance (kw (VStr "alice") VNone VNone VNone) alice_blocks (Some alice_blocks).

(** The same instance is handed over to [bob]. *)
Definition bob : Kwargs := kw (VStr "bob") VNone VNone VNone.

Definition reconfigured : State := snd (_configure defaults VNone bob alice_cached).

(** An instance of the visitor that has not resolved a username although one
    is cached for its origin and site. *)
Definition visitor_with_cache : State :=
  instance visitor {[ "USERNAME_192.0.2.7_shop.example" := VStr "guest" ]} None.

(** An instance of [alice] whose running user is cached and not yet held by
    the client. *)
Definition alice_with_running_user : State :=
  instance (kw (VStr "alice") VNone VNone VNone)
           {[ "RUNNING_USER_alice" := VObj "<RunningUser>" ]} None.


(** A table of date slugs, and one in which a later entry repeats the
    auto-date of an earlier one. *)
Definition date_slugs : list Util.Mapping :=
  [ {| Util.auto_date := VStr "today"; Util.slug := VStr "today" |};
    {| Util.auto_date := VStr "tomorrow"; Util.slug := VStr "tomorrow" |};
    {| Util.auto_date := VStr "+7"; Util.slug := VStr "next-week" |} ].

Definition overridden_slugs : list Util.Mapping :=
  [ {| Util.auto_date := VStr "+7"; Util.slug := VStr "next-week" |};
    {| Util.auto_date := VStr "+7"; Util.slug := VStr "in-a-week" |} ].

(** A request with a list of seats, and one with flags. *)
Definition seats_request : list (string * Util.pyobj) :=
  [ ("perf_id", Util.PStr "6IF-A7N");
    ("seat", Util.PList [Util.PStr "A1"; Util.PStr "A2"]) ].

Definition flags_request : list (string * Util.pyobj) :=
  [ ("req_seat_blocks", Util.PBool true);
    ("req_avail_details", Util.PBool false);
    ("promo_code", Util.PNone);
    ("no_of_seats", Util.POther "2") ].

End Ex.

(** * Proofs *)

Local Open Scope list_scope.

Ltac unfold_monad :=
  unfold settings_getitem, settings_get, settings_setitem,
    session_setitem, session_get, session_keys, session_delitem,
    session_save, session_flush_crypto_blocks, when, emit, modify,
    get_state, raise, ret, bind in *.

Ltac red_state :=
  cbn [settings _session_store _session _core_api heap trace
       with_settings with_session_store with_core_api with_heap with_trace
       with_session_data fst snd] in *.

(** ** The monad *)

Lemma bind_Return {A B} (c : M A) (k : A -> M B) st a st' :
  c st = (Return a, st') -> bind c k st = k a st'.
Proof. intros H. unfold bind. by rewrite H. Qed.

Lemma bind_Raise {A B} (c : M A) (k : A -> M B) st e st' :
  c st = (Raise e, st') -> bind c k st = (Raise e, st').
Proof. intros H. unfold bind. by rewrite H. Qed.

Lemma for_each_app {A} (xs ys : list A) (body : A -> M unit) st :
  for_each (xs ++ ys) body st = (for_each xs body ;; for_each ys body) st.
Proof.
  revert st. induction xs as [|x xs IH]; intros st; simpl.
  - reflexivity.
  - unfold bind in *. destruct (body x st) as [[[]|e] st1]; [apply IH | done].
Qed.

(** ** The session heap *)

Lemma deref_with_session_data ref d st :
  deref (with_session_data ref d st) ref
  = {| sess_data := d; sess_has_save := sess_has_save (deref st ref);
       sess_flush := sess_flush (deref st ref) |}.
Proof. unfold deref, with_session_data. red_state. by rewrite lookup_insert_eq. Qed.

Lemma deref_with_session_data_ne ref ref' d st :
  ref <> ref' -> deref (with_session_data ref d st) ref' = deref st ref'.
Proof.
  intros Hne. unfold deref, with_session_data. red_state.
  by rewrite lookup_insert_ne.
Qed.

Lemma deref_with_trace t st ref : deref (with_trace t st) ref = deref st ref.
Proof. reflexivity. Qed.

Lemma deref_with_session_store m st ref :
  deref (with_session_store m st) ref = deref st ref.
Proof. reflexivity. Qed.

Lemma deref_with_settings s st ref : deref (with_settings s st) ref = deref st ref.
Proof. reflexivity. Qed.

Lemma deref_with_core_api c st ref : deref (with_core_api c st) ref = deref st ref.
Proof. reflexivity. Qed.

(** ** [_retrieve_data] and [_store_data] *)

Lemma _retrieve_data_run key st :
  _retrieve_data key st
  = (Return (retrieved st key), with_trace (trace st ++ retrieve_events st key) st).
Proof.
  unfold _retrieve_data, retrieve_events, retrieved. unfold_monad.
  destruct st as [s ls se ca h t]; simpl.
  destruct se as [ref|]; simpl.
  2: reflexivity.
  destruct (truthy (default VNone (ls !! key))); simpl.
  1: reflexivity.
  unfold with_trace; simpl. by rewrite <- app_assoc.
Qed.

Lemma _store_data_run key data save st :
  _store_data key data save st = (Return tt, stored key data save st).
Proof.
  unfold _store_data, stored, store_events. unfold_monad.
  destruct st as [s ls se ca h t]; simpl.
  destruct se as [ref|]; simpl.
  2: reflexivity.
  unfold deref; simpl.
  destruct (save && sess_has_save (default blank_session (h !! ref))); simpl;
    unfold with_trace, with_session_data, with_heap, deref; simpl;
    by rewrite <- ?app_assoc.
Qed.

Lemma stored_settings key data save st :
  settings (stored key data save st) = settings st.
Proof. destruct st as [s ls [ref|] ca h t]; reflexivity. Qed.

Lemma stored_session key data save st :
  _session (stored key data save st) = _session st.
Proof. destruct st as [s ls [ref|] ca h t]; reflexivity. Qed.

Lemma stored_core_api key data save st :
  _core_api (stored key data save st) = _core_api st.
Proof. destruct st as [s ls [ref|] ca h t]; reflexivity. Qed.

Lemma stored_trace key data save st :
  trace (stored key data save st) = trace st ++ store_events st key data save.
Proof. reflexivity. Qed.

Lemma stored_session_store key data save st :
  _session_store (stored key data save st) = <[key := data]> (_session_store st).
Proof. destruct st as [s ls [ref|] ca h t]; reflexivity. Qed.

Lemma stored_session_lookup key data save st k :
  session_lookup (stored key data save st) k
  = match _session st with
    | Some _ => if decide (key = k) then Some data else session_lookup st k
    | None => None
    end.
Proof.
  unfold session_lookup, stored. destruct (_session st) as [ref|] eqn:E.
  2: by red_state; rewrite E.
  cbn [_session with_trace with_session_data with_heap with_session_store].
  rewrite E, deref_with_trace, deref_with_session_data. cbn [sess_data].
  rewrite lookup_insert. by destruct (decide (key = k)).
Qed.

(** C10: [_retrieve_data] answers with the local value when that value is
    true; when the local store holds nothing or a false value for the key
    and a session is attached, it answers with what the session holds for
    the key ([None] when it holds nothing); with no session attached the
    local store alone decides; a key that is in neither store gives [None];
    no error is raised and neither store is changed. *)
Theorem retrieve_data_prefers_truthy_local (st : State) (key : string) :
  let local := default VNone (_session_store st !! key) in
  let result := fst (_retrieve_data key st) in
  let st' := snd (_retrieve_data key st) in
  (truthy local = true -> result = Return local) /\
  (forall ref, truthy local = false -> _session st = Some ref ->
     result = Return (default VNone (sess_data (deref st ref) !! key))) /\
  (_session st = None -> result = Return local) /\
  (_session_store st !! key = None -> session_lookup st key = None ->
     result = Return VNone) /\
  (exists v, result = Return v) /\
  _session_store st' = _session_store st /\ heap st' = heap st.
Proof.
  rewrite _retrieve_data_run. cbn zeta. cbn [fst snd].
  unfold retrieved, session_lookup.
  repeat split.
  - intros Ht. rewrite Ht. by destruct (_session st).
  - intros ref Hf Hs. by rewrite Hs, Hf.
  - by intros ->.
  - intros Hl Hs. rewrite Hl in *. cbn [default truthy] in *.
    destruct (_session st); [by rewrite Hs | done].
  - eauto.
Qed.

Lemma retrieve_data_prefers_truthy_local_witness :
  fst (_retrieve_data "k"
         (Ex.instance no_kwargs {[ "k" := VStr "tok" ]} None))
    = Return (VStr "tok") /\
  fst (_retrieve_data "k"
         (Ex.instance no_kwargs {[ "k" := VStr "" ]}
                      (Some {[ "k" := VStr "held" ]})))
    = Return (VStr "held") /\
  fst (_retrieve_data "k" (Ex.instance no_kwargs ∅ (Some ∅))) = Return VNone.
Proof.
  split; [ | split].
  - generalize (proj1 (retrieve_data_prefers_truthy_local
      (Ex.instance no_kwargs {[ "k" := VStr "tok" ]} None) "k")).
    vm_compute. intros H. apply H. reflexivity.
  - generalize (proj1 (proj2 (retrieve_data_prefers_truthy_local
      (Ex.instance no_kwargs {[ "k" := VStr "" ]}
                   (Some {[ "k" := VStr "held" ]})) "k")) 0%nat).
    vm_compute. intros H. apply H; reflexivity.
  - generalize (proj1 (proj2 (proj2 (proj2 (retrieve_data_prefers_truthy_local
      (Ex.instance no_kwargs ∅ (Some ∅)) "k"))))).
    vm_compute. intros H. apply H; reflexivity.
Defined.

(** ** [_clear_crypto_blocks] *)

Lemma purge_lookup keys m key :
  purge keys m !! key
  = if startswith key CRYPTO_PREFIX && bool_decide (key ∈ keys)
    then None else m !! key.
Proof.
  revert m. induction keys as [|k keys IH]; intros m; cbn [purge fold_left].
  - by rewrite andb_false_r.
  - fold (purge keys). rewrite IH.
    destruct (startswith key CRYPTO_PREFIX) eqn:Hp; cbn [andb].
    + destruct (decide (key = k)) as [->|Hne].
      * rewrite Hp, lookup_delete_eq.
        rewrite (bool_decide_eq_true_2 (k ∈ k :: keys)) by left.
        by destruct (bool_decide (k ∈ keys)).
      * assert (bool_decide (key ∈ k :: keys) = bool_decide (key ∈ keys)) as ->.
        { apply bool_decide_ext. rewrite elem_of_cons. tauto. }
        destruct (bool_decide (key ∈ keys)); [done | ].
        destruct (startswith k CRYPTO_PREFIX); [ | done].
        by rewrite lookup_delete_ne.
    + destruct (startswith k CRYPTO_PREFIX) eqn:Hk; [ | done].
      rewrite lookup_delete_ne; [done | ]. intros Heq. subst. congruence.
Qed.

Lemma dict_keys_spec (m : gmap string value) key :
  key ∈ dict_keys m <-> is_Some (m !! key).
Proof.
  unfold dict_keys. rewrite list_elem_of_fmap. split.
  - intros [[k v] [-> Hin]]. apply elem_of_map_to_list in Hin. by exists v.
  - intros [v Hv]. exists (key, v). split; [done | ].
    by apply elem_of_map_to_list.
Qed.

Lemma purge_dict_keys_lookup (m : gmap string value) key :
  purge (dict_keys m) m !! key
  = if startswith key CRYPTO_PREFIX then None else m !! key.
Proof.
  rewrite purge_lookup. destruct (startswith key CRYPTO_PREFIX); [ | done].
  cbn [andb]. destruct (bool_decide (key ∈ dict_keys m)) eqn:Hin; [done | ].
  apply bool_decide_eq_false in Hin. rewrite dict_keys_spec in Hin.
  symmetry. by apply eq_None_not_Some in Hin.
Qed.

Lemma purge_no_crypto_block (m : gmap string value) :
  no_crypto_block (purge (dict_keys m) m).
Proof. intros key Hp. by rewrite purge_dict_keys_lookup, Hp. Qed.

Lemma local_purge_run keys st :
  for_each keys (fun key =>
      when (startswith key CRYPTO_PREFIX)
        (modify (fun s => with_session_store (delete key (_session_store s)) s)))
    st
  = (Return tt, with_session_store (purge keys (_session_store st)) st).
Proof.
  revert st. induction keys as [|k keys IH]; intros st.
  - by destruct st.
  - cbn [for_each purge fold_left]. fold (purge keys). unfold bind at 1.
    destruct (startswith k CRYPTO_PREFIX); unfold when, modify, ret;
      rewrite IH; [done | by destruct st].
Qed.

Lemma session_purge_run ref keys st :
  exists st',
    for_each keys (fun key =>
        when (startswith key CRYPTO_PREFIX) (session_delitem ref key)) st
    = (Return tt, st') /\
    settings st' = settings st /\
    _session_store st' = _session_store st /\
    _session st' = _session st /\
    _core_api st' = _core_api st /\
    trace st' = trace st ++ purge_calls ref keys /\
    sess_data (deref st' ref) = purge keys (sess_data (deref st ref)) /\
    sess_has_save (deref st' ref) = sess_has_save (deref st ref) /\
    sess_flush (deref st' ref) = sess_flush (deref st ref) /\
    (forall ref', ref' <> ref -> deref st' ref' = deref st ref').
Proof.
  revert st. induction keys as [|k keys IH]; intros st.
  - exists st. unfold purge_calls. cbn. rewrite app_nil_r. by repeat split.
  - cbn [for_each purge fold_left]. fold (purge keys). unfold bind at 1.
    unfold purge_calls. cbn [List.filter].
    destruct (startswith k CRYPTO_PREFIX) eqn:Hk.
    + unfold when, session_delitem. unfold_monad.
      set (st1 := with_session_data ref _ _).
      destruct (IH st1) as (st' & Hrun & Hs & Hl & Hse & Hc & Ht & Hd & Hsv & Hf & Ho).
      exists st'. rewrite Hrun, Hs, Hl, Hse, Hc, Ht, Hd, Hsv, Hf.
      subst st1. rewrite deref_with_session_data. red_state.
      rewrite <- app_assoc. repeat split; try done.
      intros ref' Hne. rewrite Ho by done.
      by rewrite deref_with_session_data_ne.
    + unfold when, ret. apply IH.
Qed.

Lemma _clear_crypto_blocks_post st :
  exists st',
    _clear_crypto_blocks st = (Return tt, st') /\
    settings st' = settings st /\
    _session st' = _session st /\
    _core_api st' = _core_api st /\
    _session_store st'
      = purge (dict_keys (_session_store st)) (_session_store st) /\
    match _session st with
    | None => heap st' = heap st /\ trace st' = trace st ++ [LogClear]
    | Some ref =>
        sess_has_save (deref st' ref) = sess_has_save (deref st ref) /\
        sess_flush (deref st' ref) = sess_flush (deref st ref) /\
        (forall ref', ref' <> ref -> deref st' ref' = deref st ref') /\
        match sess_flush (deref st ref) with
        | Some flush =>
            sess_data (deref st' ref) = flush (sess_data (deref st ref)) /\
            trace st' = trace st ++ [LogClear; CallSession ref SFlush]
        | None =>
            sess_data (deref st' ref)
              = purge (dict_keys (sess_data (deref st ref)))
                      (sess_data (deref st ref)) /\
            trace st' = trace st ++ [LogClear; CallSession ref SKeys]
                          ++ purge_calls ref (dict_keys (sess_data (deref st ref)))
        end
    end.
Proof.
  unfold _clear_crypto_blocks.
  unfold emit at 1, modify at 1, get_state at 1, bind at 1 2 3.
  set (st0 := with_trace (trace st ++ [LogClear]) st).
  fold (dict_keys (_session_store st0)). rewrite local_purge_run.
  set (st1 := with_session_store _ st0).
  change (_session st0) with (_session st).
  change (deref st0) with (deref st).
  change (_session_store st0) with (_session_store st) in st1.
  destruct (_session st) as [ref|] eqn:Hse.
  - destruct (sess_flush (deref st ref)) as [flush|] eqn:Hfl.
    + exists (with_session_data ref (flush (sess_data (deref st ref)))
               (with_trace (trace st1 ++ [CallSession ref SFlush]) st1)).
      split; [reflexivity | ].
      rewrite deref_with_session_data. subst st1 st0. red_state.
      rewrite <- app_assoc. repeat split; try done.
      intros ref' Hne. by rewrite deref_with_session_data_ne.
    + unfold session_keys. unfold_monad. fold (dict_keys (sess_data (deref st ref))).
      set (st2 := with_trace (trace st1 ++ [CallSession ref SKeys]) st1).
      change (sess_data (deref st2 ref)) with (sess_data (deref st ref)).
      fold (dict_keys (sess_data (deref st ref))).
      destruct (session_purge_run ref (dict_keys (sess_data (deref st ref))) st2)
        as (st' & Hrun & Hs & Hl & Hse' & Hc & Ht & Hd & Hsv & Hf & Ho).
      exists st'. split; [exact Hrun | ].
      rewrite Hs, Hl, Hse', Hc, Ht, Hd, Hsv, Hf.
      subst st2 st1 st0. red_state. rewrite <- !app_assoc.
      repeat split; try done.
  - exists st1. subst st1 st0. by repeat split.
Qed.

(** C8: [_clear_crypto_blocks] returns normally; afterwards the local store
    holds nothing under a key that starts with [CRYPTO_BLOCK] and holds
    every other entry (cached user names, running users) as before.  With
    no session attached nothing else happens.  With a session attached, a
    session that exposes [flush_crypto_blocks] gets exactly that one call
    and holds what its bulk operation leaves; any other session has its
    keys enumerated once and each key with the prefix deleted by a [del] of
    its own, the other entries being kept. *)
Theorem clear_crypto_blocks_effect (st : State) :
  let st' := snd (_clear_crypto_blocks st) in
  fst (_clear_crypto_blocks st) = Return tt /\
  (forall key,
     _session_store st' !! key
     = if startswith key CRYPTO_PREFIX then None else _session_store st !! key) /\
  match _session st with
  | None => heap st' = heap st /\ trace st' = trace st ++ [LogClear]
  | Some ref =>
      match sess_flush (deref st ref) with
      | Some flush =>
          sess_data (deref st' ref) = flush (sess_data (deref st ref)) /\
          trace st' = trace st ++ [LogClear; CallSession ref SFlush]
      | None =>
          (forall key,
             sess_data (deref st' ref) !! key
             = if startswith key CRYPTO_PREFIX then None
               else sess_data (deref st ref) !! key) /\
          trace st'
          = trace st ++ [LogClear; CallSession ref SKeys]
              ++ map (fun key => CallSession ref (SDelItem key))
                   (List.filter (fun key => startswith key CRYPTO_PREFIX)
                      (dict_keys (sess_data (deref st ref))))
      end
  end.
Proof.
  destruct (_clear_crypto_blocks_post st)
    as (st' & Hrun & _ & _ & _ & Hlocal & Hsess).
  rewrite Hrun. cbn zeta. cbn [fst snd]. split; [done | ]. split.
  - intros key. rewrite Hlocal. apply purge_dict_keys_lookup.
  - destruct (_session st) as [ref|]; [ | done].
    destruct Hsess as (_ & _ & _ & Hsess).
    destruct (sess_flush (deref st ref)) as [flush|]; [done | ].
    destruct Hsess as [Hd Ht]. split; [ | exact Ht].
    intros key. rewrite Hd. apply purge_dict_keys_lookup.
Qed.

(** ** Keys *)

Lemma append_inj_r (p a b : string) : (p ++ a)%string = (p ++ b)%string -> a = b.
Proof. induction p as [|c p IH]; cbn; [done | ]. intros [=]. auto. Qed.

Lemma crypto_object_key_inj username method_name a b :
  crypto_object_key username method_name a
  = crypto_object_key username method_name b ->
  _get_cache_key a = _get_cache_key b.
Proof.
  unfold crypto_object_key. intros H.
  apply append_inj_r in H. by apply (append_inj_r "_") in H.
Qed.

Lemma crypto_session_key_inj username m1 m2 :
  crypto_session_key username m1 = crypto_session_key username m2 -> m1 = m2.
Proof.
  unfold crypto_session_key. intros H.
  apply (append_inj_r CRYPTO_PREFIX) in H. apply (append_inj_r "_") in H.
  apply append_inj_r in H. by apply (append_inj_r "_") in H.
Qed.

Lemma crypto_session_key_prefix username method_name :
  startswith (crypto_session_key username method_name) CRYPTO_PREFIX = true.
Proof. reflexivity. Qed.

Lemma crypto_object_key_prefix username method_name obj :
  startswith (crypto_object_key username method_name obj) CRYPTO_PREFIX = true.
Proof. reflexivity. Qed.

Lemma username_key_not_crypto remote_ip remote_site :
  startswith (_get_username_session_key remote_ip remote_site) CRYPTO_PREFIX
  = false.
Proof. reflexivity. Qed.

Lemma running_user_key_not_crypto username :
  startswith (_get_running_user_session_key username) CRYPTO_PREFIX = false.
Proof. reflexivity. Qed.

(** ** Reading back what was stored *)

Lemma retrieved_alt st key :
  retrieved st key
  = let data := default VNone (_session_store st !! key) in
    match _session st with
    | Some _ => if truthy data then data
                else default VNone (session_lookup st key)
    | None => data
    end.
Proof. unfold retrieved, session_lookup. by destruct (_session st). Qed.

Lemma retrieved_stored key data save st :
  retrieved (stored key data save st) key = data.
Proof.
  rewrite retrieved_alt, stored_session_store, stored_session,
    stored_session_lookup, lookup_insert_eq. cbn [default].
  destruct (_session st); [ | done].
  rewrite decide_True by done. cbn.
  by destruct (truthy data).
Qed.

Lemma retrieved_stored_ne key key' data save st :
  key <> key' ->
  retrieved (stored key data save st) key' = retrieved st key'.
Proof.
  intros Hne.
  rewrite !retrieved_alt, stored_session_store, stored_session,
    stored_session_lookup, lookup_insert_ne by done.
  destruct (_session st); [ | done]. by rewrite decide_False.
Qed.

Lemma retrieved_with_trace t st key :
  retrieved (with_trace t st) key = retrieved st key.
Proof. reflexivity. Qed.

Lemma _get_crypto_session_key_run username method_name st :
  _get_crypto_session_key username method_name st
  = (Return (crypto_session_key username method_name),
     with_trace (trace st ++ [KeyDerived (settings st !! "username")
                                (crypto_session_key username method_name)]) st).
Proof. reflexivity. Qed.

Lemma _get_crypto_object_key_run username method_name obj st :
  _get_crypto_object_key username method_name obj st
  = (Return (crypto_object_key username method_name obj),
     with_trace (trace st ++ [KeyDerived (settings st !! "username")
                                (crypto_session_key username method_name)]) st).
Proof. reflexivity. Qed.

Lemma _set_crypto_for_object_run crypto_block method_name obj st username :
  settings st !! "username" = Some username ->
  _set_crypto_for_object crypto_block method_name obj st
  = (Return tt,
     stored (crypto_object_key username method_name obj) crypto_block true
            (key_derived username method_name st)).
Proof.
  intros Hu. unfold _set_crypto_for_object, settings_getitem.
  unfold bind at 1. rewrite Hu. unfold bind.
  rewrite _get_crypto_object_key_run, Hu. apply _store_data_run.
Qed.

Lemma _set_crypto_block_run crypto_block method_name st username :
  settings st !! "username" = Some username ->
  _set_crypto_block crypto_block method_name st
  = (Return tt,
     stored (crypto_session_key username method_name) crypto_block true
            (key_derived username method_name st)).
Proof.
  intros Hu. unfold _set_crypto_block, settings_getitem.
  unfold bind at 1. rewrite Hu. unfold bind.
  rewrite _get_crypto_session_key_run, Hu. apply _store_data_run.
Qed.

(** ** Counting remote calls and commits *)

Lemma remote_calls_app t evs :
  remote_calls (t ++ evs) = (remote_calls t + remote_calls evs)%nat.
Proof. unfold remote_calls. by rewrite List.filter_app, length_app. Qed.

Lemma saves_app t evs : saves (t ++ evs) = (saves t + saves evs)%nat.
Proof. unfold saves. by rewrite List.filter_app, length_app. Qed.

Lemma remote_calls_store_events st key data save :
  remote_calls (store_events st key data save) = 0%nat.
Proof.
  unfold store_events. destruct (_session st); [ | done].
  by destruct (save && _).
Qed.

Lemma remote_calls_retrieve_events st key :
  remote_calls (retrieve_events st key) = 0%nat.
Proof.
  unfold retrieve_events. destruct (_session st); [ | done].
  by destruct (truthy _).
Qed.

Lemma remote_calls_stored key data save st :
  remote_calls (trace (stored key data save st)) = remote_calls (trace st).
Proof.
  rewrite stored_trace, remote_calls_app, remote_calls_store_events. lia.
Qed.

(** ** [_set_crypto_for_objects] *)

Lemma stored_deref_has_save key data save st r :
  sess_has_save (deref (stored key data save st) r) = sess_has_save (deref st r).
Proof.
  unfold stored. rewrite deref_with_trace.
  destruct (_session st) as [ref|]; [ | done].
  destruct (decide (ref = r)) as [->|Hne].
  - by rewrite deref_with_session_data.
  - by rewrite deref_with_session_data_ne.
Qed.

Lemma stored_deref_flush key data save st r :
  sess_flush (deref (stored key data save st) r) = sess_flush (deref st r).
Proof.
  unfold stored. rewrite deref_with_trace.
  destruct (_session st) as [ref|]; [ | done].
  destruct (decide (ref = r)) as [->|Hne].
  - by rewrite deref_with_session_data.
  - by rewrite deref_with_session_data_ne.
Qed.

Lemma stored_deref_data key data save st ref :
  _session st = Some ref ->
  sess_data (deref (stored key data save st) ref)
  = <[key := data]> (sess_data (deref st ref)).
Proof.
  intros Hs. unfold stored. rewrite deref_with_trace, Hs.
  by rewrite deref_with_session_data.
Qed.

Lemma set_crypto_for_objects_body_run crypto_block method_name n io st username :
  settings st !! "username" = Some username ->
  set_crypto_for_objects_body crypto_block method_name n io st
  = (Return tt,
     stored (crypto_object_key username method_name (snd io)) crypto_block
            (Z.of_nat (fst io) =? Z.of_nat n - 1)%Z
            (key_derived username method_name st)).
Proof.
  intros Hu. unfold set_crypto_for_objects_body, settings_getitem.
  unfold bind at 1. rewrite Hu. unfold bind.
  rewrite _get_crypto_object_key_run, Hu. apply _store_data_run.
Qed.

Lemma object_write_run ref crypto_block method_name n io st username :
  settings st !! "username" = Some username ->
  _session st = Some ref ->
  sess_has_save (deref st ref) = true ->
  exists st',
    set_crypto_for_objects_body crypto_block method_name n io st
    = (Return tt, st') /\
    settings st' = settings st /\
    _session st' = _session st /\
    sess_has_save (deref st' ref) = true /\
    trace st' = trace st ++ object_write_events ref username method_name
                              crypto_block
                              (Z.of_nat (fst io) =? Z.of_nat n - 1)%Z (snd io) /\
    _session_store st'
    = <[crypto_object_key username method_name (snd io) := crypto_block]>
        (_session_store st) /\
    sess_data (deref st' ref)
    = <[crypto_object_key username method_name (snd io) := crypto_block]>
        (sess_data (deref st ref)).
Proof.
  intros Hu Hs Hsave. eexists. split.
  { by apply set_crypto_for_objects_body_run. }
  rewrite stored_settings, stored_session, stored_deref_has_save,
    stored_session_store, stored_trace, stored_deref_data by done.
  unfold key_derived, store_events, object_write_events.
  cbn [trace with_trace _session]. rewrite Hs, deref_with_trace, Hsave.
  rewrite andb_true_r, <- app_assoc. by repeat split.
Qed.

Lemma insert_keeps (m : gmap string value) key key' data :
  m !! key' = Some data -> <[key := data]> m !! key' = Some data.
Proof.
  intros H. destruct (decide (key = key')) as [->|Hne].
  - apply lookup_insert_eq.
  - by rewrite lookup_insert_ne.
Qed.

Lemma front_writes_run ref crypto_block method_name username n front :
  forall i st,
    (i + length front < n)%nat ->
    settings st !! "username" = Some username ->
    _session st = Some ref ->
    sess_has_save (deref st ref) = true ->
    exists st',
      for_each (zip (seq i (length front)) front)
               (set_crypto_for_objects_body crypto_block method_name n) st
      = (Return tt, st') /\
      settings st' = settings st /\
      _session st' = _session st /\
      sess_has_save (deref st' ref) = true /\
      trace st'
      = trace st ++ concat (map (object_write_events ref username method_name
                                   crypto_block false) front) /\
      (forall key, _session_store st !! key = Some crypto_block ->
                   _session_store st' !! key = Some crypto_block) /\
      (forall key, sess_data (deref st ref) !! key = Some crypto_block ->
                   sess_data (deref st' ref) !! key = Some crypto_block) /\
      (forall obj, obj ∈ front ->
         _session_store st' !! crypto_object_key username method_name obj
         = Some crypto_block /\
         sess_data (deref st' ref) !! crypto_object_key username method_name obj
         = Some crypto_block).
Proof.
  induction front as [|obj front IH]; intros i st Hlt Hu Hs Hsave.
  - exists st. cbn. rewrite app_nil_r.
    do 7 (split; [done | ]). by intros ? ?%elem_of_nil.
  - cbn [length seq zip zip_with for_each map concat].
    destruct (object_write_run ref crypto_block method_name n (i, obj) st
                username Hu Hs Hsave)
      as (st1 & Hrun1 & Hs1 & Hse1 & Hsv1 & Ht1 & Hl1 & Hd1).
    rewrite (bind_Return _ _ _ _ _ Hrun1).
    destruct (IH (S i) st1)
      as (st' & Hrun & Hs' & Hse' & Hsv' & Ht' & Hkl & Hkd & Hin').
    { cbn [length] in Hlt. lia. }
    { by rewrite Hs1. }
    { by rewrite Hse1. }
    { done. }
    exists st'. rewrite Hrun, Hs', Hse', Hs1, Hse1, Ht', Ht1.
    cbn [fst snd] in *.
    assert ((Z.of_nat i =? Z.of_nat n - 1)%Z = false) as ->.
    { apply Z.eqb_neq. cbn [length] in Hlt. lia. }
    rewrite <- app_assoc. split; [done | ]. split; [done | ].
    split; [done | ]. split; [done | ]. split; [done | ].
    split; [ | split].
    + intros key Hk. apply Hkl. rewrite Hl1. by apply insert_keeps.
    + intros key Hk. apply Hkd. rewrite Hd1. by apply insert_keeps.
    + intros o [->|Hin]%elem_of_cons; [ | by apply Hin'].
      split.
      * apply Hkl. rewrite Hl1. apply lookup_insert_eq.
      * apply Hkd. rewrite Hd1. apply lookup_insert_eq.
Qed.

Lemma enumerate_snoc {A} (xs : list A) (x : A) :
  enumerate (xs ++ [x]) = zip (seq 0 (length xs)) xs ++ [(length xs, x)].
Proof.
  unfold enumerate. rewrite length_app. cbn [length].
  rewrite seq_app. cbn [seq Nat.add].
  rewrite zip_with_app by (by rewrite length_seq). done.
Qed.


Ltac simpl_proj :=
  repeat progress
    (rewrite ?stored_session, ?stored_settings, ?stored_core_api;
     unfold key_derived, called;
     cbn [_session settings _core_api
          with_trace with_settings with_core_api]).


(** ** Histories *)







Lemma remote_calls_key_derived username method_name st :
  remote_calls (trace (key_derived username method_name st))
  = remote_calls (trace st).
Proof.
  unfold key_derived. cbn [trace with_trace]. rewrite remote_calls_app.
  cbn. lia.
Qed.

Lemma bootstrapped_remote_calls crypto_block username running_user refresh st :
  remote_calls
    (trace (bootstrapped crypto_block username running_user refresh st))
  = remote_calls (trace st).
Proof.
  unfold bootstrapped.
  destruct refresh as [[ip site]|]; destruct (truthy crypto_block);
    by rewrite ?remote_calls_stored, ?remote_calls_key_derived,
      ?remote_calls_stored.
Qed.

Lemma called_remote_calls api' st :
  remote_calls (trace (called api' st)) = S (remote_calls (trace st)).
Proof.
  unfold called. cbn [trace with_core_api with_trace].
  rewrite remote_calls_app. cbn. lia.
Qed.



(** ** The setters *)











(** ** Reconfiguration *)

Lemma setting_differs_spec s key v :
  setting_differs s key v = true <-> setting_changes s key v.
Proof.
  unfold setting_differs, setting_changes, ne. split.
  - destruct (s !! key) as [old|]; [ | done].
    intros [Ht Hne]%andb_true_iff. exists old.
    apply negb_true_iff, bool_decide_eq_false in Hne. done.
  - intros (old & -> & Ht & Hne). rewrite Ht. cbn.
    by apply negb_true_iff, bool_decide_eq_false.
Qed.

Lemma identity_differs_spec a st :
  identity_differs a st = true <-> identity_changes a st.
Proof.
  unfold identity_differs, identity_changes.
  rewrite !orb_true_iff, !setting_differs_spec. tauto.
Qed.

Lemma retrieved_absent st key :
  _session_store st !! key = None ->
  session_lookup st key = None ->
  retrieved st key = VNone.
Proof.
  intros Hl Hs. rewrite retrieved_alt, Hl, Hs. cbn. by destruct (_session st).
Qed.

Lemma written_other_crypto crypto_block username running_user refresh old key :
  startswith key CRYPTO_PREFIX = true ->
  key <> crypto_session_key username "start_session" ->
  written crypto_block username running_user refresh old key = old.
Proof.
  intros Hp Hne. unfold written.
  rewrite (bool_decide_eq_false_2 (_ = key)) by congruence.
  rewrite andb_false_r. destruct refresh as [[ip site]|]; [ | done].
  rewrite (bool_decide_eq_false_2 (_ = key)).
  2: { intros <-. by rewrite running_user_key_not_crypto in Hp. }
  rewrite (bool_decide_eq_false_2 (_ = key)); [done | ].
  intros <-. by rewrite username_key_not_crypto in Hp.
Qed.

Lemma cleared_holds_no_crypto_block st :
  flush_clears st ->
  holds_no_crypto_block (snd (_clear_crypto_blocks st)).
Proof.
  intros Hflush.
  destruct (_clear_crypto_blocks_post st)
    as (st' & Hrun & _ & Hse & _ & Hlocal & Hsess).
  rewrite Hrun. cbn [snd]. split.
  - rewrite Hlocal. apply purge_no_crypto_block.
  - intros key Hp. unfold session_lookup. rewrite Hse.
    destruct (_session st) as [ref|] eqn:Hs; [ | done].
    destruct Hsess as (_ & _ & _ & Hsess).
    destruct (sess_flush (deref st ref)) as [flush|] eqn:Hf.
    + destruct Hsess as [-> _]. by apply (Hflush ref flush).
    + destruct Hsess as [-> _]. by apply purge_no_crypto_block.
Qed.

Lemma string_append_assoc (a b c : string) :
  ((a ++ b) ++ c)%string = (a ++ (b ++ c))%string.
Proof.
  induction a as [|x a IH]; [reflexivity | ].
  change (String x ((a ++ b) ++ c)%string = String x (a ++ (b ++ c))%string).
  by rewrite IH.
Qed.

Section Proofs.

Variable default_settings : DefaultSettings.
Variable initial_running_user : value.
Variable remote : nat -> CoreAPI -> outcome value * CoreAPI.

(** ** Crypto blocks of transactional objects *)

Lemma _get_crypto_block_for_object_run method_name obj st username :
  settings st !! "username" = Some username ->
  truthy username = true ->
  _get_crypto_block_for_object remote method_name obj st
  = (Return (retrieved st (crypto_object_key username method_name obj)),
     with_trace
       (trace st ++ [KeyDerived (Some username)
                       (crypto_session_key username method_name)]
          ++ retrieve_events st (crypto_object_key username method_name obj))
       st).
Proof.
  intros Hu Ht. unfold _get_crypto_block_for_object, settings_get, settings_getitem.
  unfold bind at 1. rewrite Hu. cbn [default from_option id]. rewrite Ht. cbn [negb].
  unfold bind at 1. unfold ret at 1. unfold bind at 1. rewrite Hu.
  unfold bind. rewrite _get_crypto_object_key_run, Hu, _retrieve_data_run.
  f_equal. destruct st; unfold with_trace; cbn. by rewrite <- app_assoc.
Qed.


(** C7: on an instance whose settings hold a resolved username, storing a
    crypto block with [_set_crypto_for_object] and reading it back at once
    with [_get_crypto_block_for_object], for the same method name and the
    same object, gives the very value that was stored (whatever it is), and
    no remote call is made on the way. *)
Theorem crypto_block_for_object_round_trip
    (st : State) (username crypto_block : value) (method_name : string)
    (obj : TransactionalObject) :
  settings st !! "username" = Some username ->
  truthy username = true ->
  let st1 := snd (_set_crypto_for_object crypto_block method_name obj st) in
  let r := _get_crypto_block_for_object remote method_name obj st1 in
  fst (_set_crypto_for_object crypto_block method_name obj st) = Return tt /\
  fst r = Return crypto_block /\
  remote_calls (trace (snd r)) = remote_calls (trace st).
Proof.
  intros Hu Ht. cbn zeta.
  rewrite (_set_crypto_for_object_run _ _ _ _ _ Hu). cbn [fst snd].
  rewrite (_get_crypto_block_for_object_run _ _ _ username)
    by (by rewrite ?stored_settings).
  cbn [fst snd]. rewrite retrieved_stored. repeat split.
  cbn [trace with_trace]. rewrite !remote_calls_app, remote_calls_retrieve_events.
  rewrite remote_calls_stored. unfold key_derived. cbn [trace with_trace].
  rewrite remote_calls_app. cbn. lia.
Qed.

(** C6: two objects with different identity tokens get different storage
    keys for one and the same username and method name, so on an instance
    with a resolved username what [_get_crypto_block_for_object] answers
    for object [a] is not affected by a [_set_crypto_for_object] for object
    [b]: it answers as it would have without that write, and with [None]
    when nothing was held for [a]. *)
Theorem crypto_blocks_of_distinct_objects_are_apart
    (a b : TransactionalObject) (username : value) (method_name : string) :
  _get_cache_key a <> _get_cache_key b ->
  (forall st,
     fst (_get_crypto_object_key username method_name a st)
     <> fst (_get_crypto_object_key username method_name b st)) /\
  (forall st crypto_block,
     settings st !! "username" = Some username ->
     truthy username = true ->
     let st1 := snd (_set_crypto_for_object crypto_block method_name b st) in
     fst (_get_crypto_block_for_object remote method_name a st1)
     = fst (_get_crypto_block_for_object remote method_name a st) /\
     (_session_store st !! crypto_object_key username method_name a = None ->
      session_lookup st (crypto_object_key username method_name a) = None ->
      fst (_get_crypto_block_for_object remote method_name a st1)
      = Return VNone)).
Proof.
  intros Hne.
  assert (crypto_object_key username method_name b
          <> crypto_object_key username method_name a) as Hk.
  { intros H. apply crypto_object_key_inj in H. congruence. }
  split.
  - intros st. rewrite !_get_crypto_object_key_run. cbn [fst]. congruence.
  - intros st crypto_block Hu Ht. cbn zeta.
    rewrite (_set_crypto_for_object_run _ _ _ _ _ Hu). cbn [fst snd].
    rewrite (_get_crypto_block_for_object_run _ _ _ username)
      by (by rewrite ?stored_settings).
    rewrite (_get_crypto_block_for_object_run _ _ _ username) by done.
    cbn [fst]. rewrite retrieved_stored_ne by done.
    unfold key_derived. rewrite retrieved_with_trace. split; [done | ].
    intros Hl Hs. rewrite retrieved_alt, Hl, Hs. cbn.
    by destruct (_session st).
Qed.

Lemma saves_front_writes ref username method_name crypto_block front :
  saves (concat (map (object_write_events ref username method_name
                        crypto_block false) front)) = 0%nat.
Proof.
  induction front as [|obj front IH]; [done | ].
  cbn [map concat]. rewrite saves_app, IH. reflexivity.
Qed.

(** C4: for a non-empty batch [front ++ [final]] handed to
    [_set_crypto_for_objects] on an instance attached to a session that
    exposes [save], the call returns normally, the crypto block ends up
    under the derived key of every object of the batch in the local store
    and in the session, the writes for the objects of [front] reach the local
    store and the session without a [save], and the write for [final] is
    followed by the one and only [save] of the call. *)
Theorem set_crypto_for_objects_commits_once
    (st : State) (ref : nat) (username crypto_block : value)
    (method_name : string) (front : list TransactionalObject)
    (final : TransactionalObject) :
  settings st !! "username" = Some username ->
  _session st = Some ref ->
  sess_has_save (deref st ref) = true ->
  let objs := front ++ [final] in
  let st' := snd (_set_crypto_for_objects crypto_block method_name objs st) in
  fst (_set_crypto_for_objects crypto_block method_name objs st) = Return tt /\
  (forall obj, obj ∈ objs ->
     _session_store st' !! crypto_object_key username method_name obj
     = Some crypto_block /\
     sess_data (deref st' ref) !! crypto_object_key username method_name obj
     = Some crypto_block) /\
  trace st'
  = trace st
      ++ concat (map (object_write_events ref username method_name
                        crypto_block false) front)
      ++ object_write_events ref username method_name crypto_block true final /\
  saves (trace st') = S (saves (trace st)).
Proof.
  intros Hu Hs Hsave. cbn zeta.
  change (_set_crypto_for_objects crypto_block method_name (front ++ [final]))
    with (for_each (enumerate (front ++ [final]))
            (set_crypto_for_objects_body crypto_block method_name
               (length (front ++ [final])))).
  rewrite enumerate_snoc, for_each_app.
  destruct (front_writes_run ref crypto_block method_name username
              (length (front ++ [final])) front 0%nat st)
    as (st1 & Hrun1 & Hs1 & Hse1 & Hsv1 & Ht1 & Hkl & Hkd & Hin); try done.
  { rewrite length_app. cbn. lia. }
  rewrite (bind_Return _ _ _ _ _ Hrun1). cbn [for_each].
  destruct (object_write_run ref crypto_block method_name
              (length (front ++ [final])) (length front, final) st1 username)
    as (st2 & Hrun2 & Hs2 & Hse2 & Hsv2 & Ht2 & Hl2 & Hd2);
    [congruence .. | ].
  rewrite (bind_Return _ _ _ _ _ Hrun2). cbn [fst snd ret] in *.
  assert ((Z.of_nat (length front)
           =? Z.of_nat (length (front ++ [final])) - 1)%Z = true) as Hlast.
  { apply Z.eqb_eq. rewrite length_app. cbn. lia. }
  rewrite Hlast in Ht2.
  split; [done | ]. split; [ | split].
  - intros obj [Hin'| ->%list_elem_of_singleton]%elem_of_app.
    + destruct (Hin obj Hin') as [Ha Hb]. rewrite Hl2, Hd2.
      split; by apply insert_keeps.
    + rewrite Hl2, Hd2. by rewrite !lookup_insert_eq.
  - by rewrite Ht2, Ht1, <- app_assoc.
  - rewrite Ht2, Ht1, !saves_app, saves_front_writes. cbn. lia.
Qed.


(** ** [_start_session] *)

(** The remote call touches neither the settings nor the stores. *)
Lemma core_api_start_session_frame st :
  let st' := snd (core_api_start_session remote st) in
  settings st' = settings st /\
  _session_store st' = _session_store st /\
  _session st' = _session st /\
  heap st' = heap st.
Proof.
  unfold core_api_start_session. destruct (_core_api st) as [api|]; [ | done].
  by destruct (remote _ api) as [r api'].
Qed.

(** C5: when the remote [start_session] call raises, [_start_session]
    raises the same error and has written nothing: the settings (so the
    username), the local store and the session objects are exactly as they
    were before the call. *)
Theorem failed_bootstrap_stores_nothing (st : State) (e : exn) :
  fst (core_api_start_session remote st) = Raise e ->
  let st' := snd (_start_session remote st) in
  fst (_start_session remote st) = Raise e /\
  settings st' = settings st /\
  _session_store st' = _session_store st /\
  heap st' = heap st.
Proof.
  intros Hfail. cbn zeta.
  destruct (core_api_start_session_frame st) as (Hs & Hl & _ & Hh).
  unfold _start_session.
  rewrite (bind_Raise _ _ st e (snd (core_api_start_session remote st))).
  - done.
  - rewrite <- Hfail. by destruct (core_api_start_session remote st).
Qed.


(** The three ways [_start_session] can end: with an error and nothing
    written; with the username of the remote side adopted and cached; with
    the username of the settings confirmed. *)
Lemma _start_session_cases st :
  (exists e st',
     _start_session remote st = (Raise e, st') /\
     settings st' = settings st /\
     _session_store st' = _session_store st /\
     _session st' = _session st /\
     heap st' = heap st /\
     trace st' = trace st ++ match _core_api st with
                             | Some _ => [CallStartSession]
                             | None => []
                             end)
  \/
  (exists api api' crypto_block su,
     _core_api st = Some api /\
     remote (remote_calls (trace st)) api = (Return crypto_block, api') /\
     settings st !! "username" = Some su /\
     ((exists remote_ip remote_site,
         (negb (truthy su) || ne (api_username api') su) = true /\
         settings st !! "remote_ip" = Some remote_ip /\
         settings st !! "remote_site" = Some remote_site /\
         _start_session remote st
         = (Return crypto_block,
            bootstrapped crypto_block (api_username api')
              (api_running_user api') (Some (remote_ip, remote_site))
              (called api' st)))
      \/
      (truthy su = true /\ su = api_username api' /\
       _start_session remote st
       = (Return crypto_block,
          bootstrapped crypto_block (api_username api')
            (api_running_user api') None (called api' st))))).
Proof.
  destruct (_start_session remote st) as [r st'] eqn:Hrun.
  unfold _start_session, core_api_start_session in Hrun.
  unfold bind at 1 in Hrun.
  destruct (_core_api st) as [api|] eqn:Hapi.
  2: { injection Hrun as <- <-. left.
       exists (AttributeError "start_session"), st.
       rewrite app_nil_r. by repeat split. }
  destruct (remote (remote_calls (trace st)) api) as [[cb|e] api'] eqn:Hr.
  2: { injection Hrun as <- <-. left. exists e, (called api' st).
       by repeat split. }
  fold (called api' st) in Hrun.
  unfold bind at 1, core_api_attr at 1 in Hrun.
  cbn [_core_api called with_core_api] in Hrun.
  unfold bind at 1, settings_getitem at 1 in Hrun.
  cbn [settings called with_core_api with_trace] in Hrun.
  destruct (settings st !! "username") as [su|] eqn:Hu.
  2: { injection Hrun as <- <-. left.
       exists (KeyError "username"), (called api' st). by repeat split. }
  destruct (negb (truthy su) || ne (api_username api') su) eqn:Hc.
  - unfold bind at 1 2, settings_getitem at 1 in Hrun.
    cbn [settings called with_core_api with_trace] in Hrun.
    destruct (settings st !! "remote_ip") as [ip|] eqn:Hip.
    2: { injection Hrun as <- <-. left.
         exists (KeyError "remote_ip"), (called api' st). by repeat split. }
    unfold bind at 1, settings_getitem at 1 in Hrun.
    cbn [settings called with_core_api with_trace] in Hrun.
    destruct (settings st !! "remote_site") as [site|] eqn:Hsite.
    2: { injection Hrun as <- <-. left.
         exists (KeyError "remote_site"), (called api' st). by repeat split. }
    right. exists api, api', cb, su. do 3 (split; [done | ]). left.
    exists ip, site. do 3 (split; [done | ]). rewrite <- Hrun. clear Hrun.
    unfold settings_setitem, modify. unfold bind at 1.
    unfold _set_cached_username. unfold bind at 1. rewrite _store_data_run.
    unfold bind at 1, core_api_attr. rewrite stored_core_api.
    cbn [_core_api with_settings called with_core_api].
    unfold _set_cached_running_user. rewrite _store_data_run.
    unfold bootstrapped. cbn [settings called with_core_api with_trace].
    destruct (truthy cb) eqn:Hcb; unfold when.
    + unfold bind at 1.
      erewrite _set_crypto_block_run
        by (rewrite !stored_settings; cbn [settings with_settings];
            apply lookup_insert_eq).
      reflexivity.
    + reflexivity.
  - apply orb_false_iff in Hc as [Hsu Hne].
    apply negb_false_iff in Hsu. unfold ne in Hne.
    apply negb_false_iff, bool_decide_eq_true in Hne. subst su.
    right. exists api, api', cb, (api_username api').
    do 3 (split; [done | ]). right.
    do 2 (split; [done | ]). rewrite <- Hrun. clear Hrun.
    unfold bootstrapped. unfold ret at 1. unfold bind at 1.
    destruct (truthy cb) eqn:Hcb; unfold when.
    + unfold bind at 1.
      erewrite _set_crypto_block_run
        by (cbn [settings called with_core_api with_trace]; exact Hu).
      reflexivity.
    + reflexivity.
Qed.


(** ** [_configure] *)

Lemma _configure_run a st :
  _configure default_settings initial_running_user a st
  = (Return tt,
     adopt default_settings initial_running_user a (supplied_username a st)
       (if identity_differs a st
        then snd (_clear_crypto_blocks (looked_up a st))
        else looked_up a st)).
Proof.
  unfold _configure. fold (looks_up_username a).
  fold (adopted default_settings a).
  assert ((if looks_up_username a
           then _get_cached_username (kw_remote_ip a) (kw_remote_site a)
           else ret (kw_username a)) st
          = (Return (supplied_username a st), looked_up a st)) as Hlook.
  { unfold supplied_username, looked_up, _get_cached_username.
    destruct (looks_up_username a); [apply _retrieve_data_run | done]. }
  rewrite (bind_Return _ _ _ _ _ Hlook).
  unfold get_state at 1, bind at 1.
  assert (settings (looked_up a st) = settings st) as ->.
  { unfold looked_up. by destruct (looks_up_username a). }
  fold (identity_differs a st).
  destruct (identity_differs a st); unfold when.
  - destruct (_clear_crypto_blocks_post (looked_up a st)) as (st' & Hrun & _).
    rewrite (bind_Return _ _ _ _ _ Hrun), Hrun. reflexivity.
  - reflexivity.
Qed.


(** ** Settings *)

Lemma _get_settings_username a : _get_settings a !! "username" = Some (kw_username a).
Proof. unfold _get_settings. by simplify_map_eq. Qed.

Lemma _get_settings_password a : _get_settings a !! "password" = Some (kw_password a).
Proof. unfold _get_settings. by simplify_map_eq. Qed.

Lemma _get_settings_remote_ip a :
  _get_settings a !! "remote_ip" = Some (kw_remote_ip a).
Proof. unfold _get_settings. by simplify_map_eq. Qed.

Lemma _get_settings_remote_site a :
  _get_settings a !! "remote_site" = Some (kw_remote_site a).
Proof. unfold _get_settings. by simplify_map_eq. Qed.




Lemma get_username_resolved st username :
  settings st !! "username" = Some username ->
  truthy username = true ->
  get_username remote st = (Return username, st).
Proof.
  intros Hu Ht. unfold get_username, settings_getitem.
  unfold bind at 1. rewrite Hu, Ht. cbn [negb]. unfold ret, bind. by rewrite Hu.
Qed.


(** ** The state after a successful bootstrap *)

Lemma stored_local_lookup key data save st k :
  _session_store (stored key data save st) !! k
  = if bool_decide (key = k) then Some data else _session_store st !! k.
Proof.
  rewrite stored_session_store, lookup_insert.
  by destruct (decide (key = k)); [rewrite bool_decide_eq_true_2
                                  | rewrite bool_decide_eq_false_2].
Qed.

Lemma stored_session_lookup_b key data save st k :
  session_lookup (stored key data save st) k
  = match _session st with
    | Some _ => if bool_decide (key = k) then Some data else session_lookup st k
    | None => None
    end.
Proof.
  rewrite stored_session_lookup. destruct (_session st); [ | done].
  by destruct (decide (key = k)); [rewrite bool_decide_eq_true_2
                                  | rewrite bool_decide_eq_false_2].
Qed.


Lemma bootstrapped_settings_username crypto_block username running_user
    refresh st :
  settings (bootstrapped crypto_block username running_user refresh st)
    !! "username"
  = match refresh with
    | Some _ => Some username
    | None => settings st !! "username"
    end.
Proof.
  unfold bootstrapped. destruct refresh as [[ip site]|];
    destruct (truthy crypto_block); simpl_proj; by rewrite ?lookup_insert_eq.
Qed.

Lemma bootstrapped_local_lookup crypto_block username running_user refresh st
    key :
  _session_store (bootstrapped crypto_block username running_user refresh st)
    !! key
  = written crypto_block username running_user refresh
            (_session_store st !! key) key.
Proof.
  unfold bootstrapped, written. destruct refresh as [[ip site]|];
    destruct (truthy crypto_block); cbn [andb];
    rewrite ?stored_local_lookup; unfold key_derived;
    cbn [_session_store with_trace]; by rewrite ?stored_local_lookup.
Qed.

Lemma session_lookup_with_trace t st key :
  session_lookup (with_trace t st) key = session_lookup st key.
Proof. reflexivity. Qed.

Lemma session_lookup_with_settings s st key :
  session_lookup (with_settings s st) key = session_lookup st key.
Proof. reflexivity. Qed.


Lemma bootstrapped_session_lookup crypto_block username running_user refresh
    st key :
  session_lookup (bootstrapped crypto_block username running_user refresh st)
                 key
  = match _session st with
    | Some _ => written crypto_block username running_user refresh
                        (session_lookup st key) key
    | None => None
    end.
Proof.
  unfold bootstrapped, written. destruct refresh as [[ip site]|];
    destruct (truthy crypto_block); cbn [andb];
    rewrite ?stored_session_lookup_b; unfold key_derived;
    cbn [_session with_trace];
    rewrite ?stored_session, ?session_lookup_with_trace,
      ?stored_session_lookup_b, ?stored_session;
    cbn [_session with_settings];
    rewrite ?stored_session_lookup_b, ?session_lookup_with_settings;
    cbn [_session with_settings];
    destruct (_session st) eqn:Hs; try done.
  all: unfold session_lookup; by rewrite Hs.
Qed.




(** ** A freshly constructed instance *)







Lemma looked_up_session a st : _session (looked_up a st) = _session st.
Proof. unfold looked_up. by destruct (looks_up_username a). Qed.

Lemma looked_up_heap a st : heap (looked_up a st) = heap st.
Proof. unfold looked_up. by destruct (looks_up_username a). Qed.

Lemma looked_up_session_store a st :
  _session_store (looked_up a st) = _session_store st.
Proof. unfold looked_up. by destruct (looks_up_username a). Qed.

Lemma looked_up_settings a st : settings (looked_up a st) = settings st.
Proof. unfold looked_up. by destruct (looks_up_username a). Qed.



(** ** [get_crypto_block] *)


Lemma get_crypto_block_unfold method_name password_required st :
  get_crypto_block remote method_name password_required st
  = if password_required
       || negb (truthy (default VNone (settings st !! "password")))
    then bind (if negb (truthy (default (VBool false)
                                        (settings st !! "username")))
               then _start_session remote else ret VNone)
              (get_crypto_block_lookup remote method_name) st
    else (Return VNone, st).
Proof.
  unfold get_crypto_block. unfold bind at 1.
  destruct password_required; cbn [orb negb andb]; [reflexivity | ].
  unfold _password_is_set, settings_get. unfold bind at 1. unfold ret at 1.
  destruct (truthy (default VNone (settings st !! "password"))); reflexivity.
Qed.

Lemma get_crypto_block_lookup_run method_name start_session_crypto st username :
  settings st !! "username" = Some username ->
  get_crypto_block_lookup remote method_name start_session_crypto st
  = let key := crypto_session_key username method_name in
    let st2 := with_trace (trace (key_derived username method_name st)
                             ++ retrieve_events st key) st in
    if negb (truthy (retrieved st key)) && String.eqb method_name "start_session"
    then if truthy start_session_crypto
         then (Return start_session_crypto, st2)
         else _start_session remote st2
    else (Return (retrieved st key), st2).
Proof.
  intros Hu. unfold get_crypto_block_lookup, settings_getitem.
  unfold bind at 1. rewrite Hu. unfold bind at 1.
  rewrite _get_crypto_session_key_run, Hu. unfold bind at 1.
  rewrite _retrieve_data_run. fold (key_derived username method_name st).
  cbn zeta.
  change (retrieved (key_derived username method_name st)) with (retrieved st).
  change (retrieve_events (key_derived username method_name st))
    with (retrieve_events st).
  assert (with_trace (trace (key_derived username method_name st)
                        ++ retrieve_events st
                             (crypto_session_key username method_name))
                     (key_derived username method_name st)
          = with_trace (trace (key_derived username method_name st)
                          ++ retrieve_events st
                               (crypto_session_key username method_name)) st)
    as -> by done.
  destruct (negb _ && _); [ | done]. by destruct (truthy start_session_crypto).
Qed.


Lemma resolved_of_truthy_default st :
  truthy (default (VBool false) (settings st !! "username")) = true ->
  username_resolved st.
Proof.
  destruct (settings st !! "username") as [u|] eqn:Hu; cbn; [ | done].
  intros Ht. by exists u.
Qed.



Lemma _get_crypto_block_for_object_unfold method_name obj st :
  _get_crypto_block_for_object remote method_name obj st
  = bind (if negb (truthy (default (VBool false)
                                   (settings st !! "username")))
          then _start_session remote ;; ret tt else ret tt)
         (fun _ => get_crypto_block_for_object_lookup method_name obj) st.
Proof. reflexivity. Qed.






Lemma get_crypto_block_lookup_absent method_name start_session_crypto st :
  method_name <> "start_session" ->
  holds_no_crypto_block st ->
  username_resolved st ->
  fst (get_crypto_block_lookup remote method_name start_session_crypto st)
  = Return VNone.
Proof.
  intros Hm [Hl Hs] (u & Hu & _).
  rewrite (get_crypto_block_lookup_run _ _ _ u Hu). cbn zeta.
  rewrite retrieved_absent
    by (first [apply Hl | apply Hs]; apply crypto_session_key_prefix).
  apply String.eqb_neq in Hm. by rewrite Hm, andb_false_r.
Qed.

(** With no crypto block held, [get_crypto_block] for a method other than
    the bootstrap method answers [None] whenever it returns. *)
Lemma get_crypto_block_absent method_name password_required st v :
  method_name <> "start_session" ->
  holds_no_crypto_block st ->
  fst (get_crypto_block remote method_name password_required st) = Return v ->
  v = VNone.
Proof.
  intros Hm Hnone. rewrite get_crypto_block_unfold.
  destruct (password_required || _); [ | by intros [= <-]].
  destruct (truthy (default (VBool false) (settings st !! "username")))
    eqn:Hres; cbn [negb].
  - unfold bind, ret.
    rewrite get_crypto_block_lookup_absent;
      [by intros [= <-] | done | done | by apply resolved_of_truthy_default].
  - unfold bind.
    destruct (_start_session_cases st)
      as [(e & st' & Hrun & _)
         |(api & api' & cb & su & Hapi & Hr & Hsu & Hcase)].
    { rewrite Hrun. by intros [=]. }
    assert (exists refresh,
              _start_session remote st
              = (Return cb, bootstrapped cb (api_username api')
                              (api_running_user api') refresh (called api' st))
              /\ settings (bootstrapped cb (api_username api')
                             (api_running_user api') refresh (called api' st))
                   !! "username" = Some (api_username api'))
      as (refresh & Hrun & Hu).
    { destruct Hcase as [(ip & site & _ & _ & _ & Hrun)|(_ & Esu & Hrun)];
        eexists; (split; [exact Hrun | ]);
        rewrite bootstrapped_settings_username; [done | ].
      unfold called. cbn [settings with_core_api with_trace]. congruence. }
    rewrite Hrun.
    rewrite (get_crypto_block_lookup_run _ _ _ _ Hu). cbn zeta.
    destruct Hnone as [Hl Hs].
    assert (crypto_session_key (api_username api') method_name
            <> crypto_session_key (api_username api') "start_session") as Hk.
    { intros H. by apply crypto_session_key_inj in H. }
    rewrite retrieved_absent.
    + apply String.eqb_neq in Hm. rewrite Hm, andb_false_r. by intros [= <-].
    + rewrite bootstrapped_local_lookup, written_other_crypto by done.
      apply Hl, crypto_session_key_prefix.
    + rewrite bootstrapped_session_lookup. unfold called at 1.
      cbn [_session with_core_api with_trace].
      destruct (_session st) eqn:Hse; [ | done].
      rewrite written_other_crypto by done.
      apply Hs, crypto_session_key_prefix.
Qed.


(** With no crypto block held, what [get_crypto_block] returns for the
    bootstrap method is [None] or a block the remote side has just issued. *)
Lemma get_crypto_block_start_session_fresh password_required st v :
  holds_no_crypto_block st ->
  fst (get_crypto_block remote "start_session" password_required st) = Return v ->
  v = VNone \/ exists n api api', remote n api = (Return v, api').
Proof.
  intros Hnone. rewrite get_crypto_block_unfold.
  destruct (password_required || _); [ | intros [= <-]; by left].
  assert (forall st2 w,
            fst (_start_session remote st2) = Return w ->
            exists n api api', remote n api = (Return w, api')) as Hissued.
  { intros st2 w.
    destruct (_start_session_cases st2)
      as [(e & st' & Hrun & _)
         |(api & api' & cb & su & Hapi & Hr & Hsu & Hcase)].
    { rewrite Hrun. by intros [=]. }
    destruct Hcase as [(ip & site & _ & _ & _ & Hrun)|(_ & _ & Hrun)];
      rewrite Hrun; intros [= <-]; eauto. }
  destruct (truthy (default (VBool false) (settings st !! "username")))
    eqn:Hres; cbn [negb].
  - unfold bind, ret.
    destruct (resolved_of_truthy_default st Hres) as (u & Hu & _).
    rewrite (get_crypto_block_lookup_run _ _ _ u Hu). cbn zeta.
    destruct Hnone as [Hl Hs].
    rewrite retrieved_absent
      by (first [apply Hl | apply Hs]; apply crypto_session_key_prefix).
    cbn. intros Hv. right. by eapply Hissued.
  - unfold bind.
    destruct (_start_session_cases st)
      as [(e & st' & Hrun & _)
         |(api & api' & cb & su & Hapi & Hr & Hsu & Hcase)].
    { rewrite Hrun. by intros [=]. }
    assert (exists refresh,
              _start_session remote st
              = (Return cb, bootstrapped cb (api_username api')
                              (api_running_user api') refresh (called api' st))
              /\ settings (bootstrapped cb (api_username api')
                             (api_running_user api') refresh (called api' st))
                   !! "username" = Some (api_username api'))
      as (refresh & Hrun & Hu).
    { destruct Hcase as [(ip & site & _ & _ & _ & Hrun)|(_ & Esu & Hrun)];
        eexists; (split; [exact Hrun | ]);
        rewrite bootstrapped_settings_username; [done | ].
      unfold called. cbn [settings with_core_api with_trace]. congruence. }
    rewrite Hrun, (get_crypto_block_lookup_run _ _ _ _ Hu). cbn zeta.
    destruct (negb _ && _) eqn:Hmiss.
    + destruct (truthy cb) eqn:Hcb.
      * intros [= <-]. right. eauto.
      * intros Hv. right. by eapply Hissued.
    + apply andb_false_iff in Hmiss as [Hhit|Hm]; [ | done].
      apply negb_false_iff in Hhit. intros [= <-].
      destruct (truthy cb) eqn:Hcb.
      * right. unfold bootstrapped. rewrite Hcb, retrieved_stored. eauto.
      * exfalso. destruct Hnone as [Hl Hs].
        rewrite retrieved_absent in Hhit; [done | | ].
        -- rewrite bootstrapped_local_lookup. unfold written. rewrite Hcb.
           cbn [andb]. destruct refresh as [[ip site]|].
           ++ rewrite (bool_decide_eq_false_2 (_ = _)) by (intros [=]).
              rewrite (bool_decide_eq_false_2 (_ = _)) by (intros [=]).
              apply Hl, crypto_session_key_prefix.
           ++ apply Hl, crypto_session_key_prefix.
        -- rewrite bootstrapped_session_lookup. unfold called at 1.
           cbn [_session with_core_api with_trace].
           destruct (_session st) eqn:Hse; [ | done].
           unfold written. rewrite Hcb. cbn [andb].
           destruct refresh as [[ip site]|].
           ++ rewrite (bool_decide_eq_false_2 (_ = _)) by (intros [=]).
              rewrite (bool_decide_eq_false_2 (_ = _)) by (intros [=]).
              apply Hs, crypto_session_key_prefix.
           ++ apply Hs, crypto_session_key_prefix.
Qed.

Lemma adopt_holds_no_crypto_block a username st :
  holds_no_crypto_block st ->
  holds_no_crypto_block (adopt default_settings initial_running_user a username st).
Proof. done. Qed.

Lemma looked_up_flush_clears a st :
  flush_clears st -> flush_clears (looked_up a st).
Proof.
  unfold flush_clears, looked_up. by destruct (looks_up_username a).
Qed.

(** C1, as the code has it: when a reconfiguration supplies a username (the
    one given or, failing it, the one cached for the origin and site given),
    a network origin or a requesting site that is not the non-empty value
    configured before, [_configure] purges the crypto blocks under the old
    settings and only then adopts the new ones; afterwards neither the local
    store nor the attached session (whose own bulk operation, if it exposes
    one, is taken to clear the prefix) holds a key that starts with
    [CRYPTO_BLOCK]; a subsequent [get_crypto_block] for any method other
    than the bootstrap method answers [None] whenever it returns, and for
    the bootstrap method it answers [None] or a block that the remote side
    has just issued. *)
Theorem reconfiguration_purges_crypto_blocks (st : State) (a : Kwargs) :
  identity_changes a st ->
  flush_clears st ->
  let st' := snd (_configure default_settings initial_running_user a st) in
  fst (_configure default_settings initial_running_user a st) = Return tt /\
  settings (looked_up a st) = settings st /\
  st' = adopt default_settings initial_running_user a (supplied_username a st)
              (snd (_clear_crypto_blocks (looked_up a st))) /\
  holds_no_crypto_block st' /\
  (forall method_name password_required v,
     method_name <> "start_session" ->
     fst (get_crypto_block remote method_name password_required st') = Return v ->
     v = VNone) /\
  (forall password_required v,
     fst (get_crypto_block remote "start_session" password_required st')
     = Return v ->
     v = VNone \/ exists n api api', remote n api = (Return v, api')).
Proof.
  intros Hchg%identity_differs_spec Hflush. cbn zeta.
  rewrite _configure_run, Hchg. cbn [fst snd].
  assert (holds_no_crypto_block
            (adopt default_settings initial_running_user a (supplied_username a st)
               (snd (_clear_crypto_blocks (looked_up a st))))) as Hnone.
  { by apply adopt_holds_no_crypto_block, cleared_holds_no_crypto_block,
      looked_up_flush_clears. }
  split; [done | ]. split; [apply looked_up_settings | ].
  split; [done | ]. split; [done | ]. split.
  - intros method_name password_required v Hm Hv.
    by eapply get_crypto_block_absent.
  - intros password_required v Hv.
    by eapply get_crypto_block_start_session_fresh.
Qed.


(** ** [get_crypto_block] and the password *)

(** With a password in the settings, [get_crypto_block] without
    [password_required] answers [None] and does nothing at all: no remote
    call, no lookup, the state is the one before. *)
Lemma get_crypto_block_with_password method_name st password :
  settings st !! "password" = Some password ->
  truthy password = true ->
  get_crypto_block remote method_name false st = (Return VNone, st).
Proof.
  intros Hp Ht. rewrite get_crypto_block_unfold, Hp. cbn. by rewrite Ht.
Qed.

(** With no password and no username resolved, the call bootstraps; it does
    so exactly once when the method is not the bootstrap method, or when the
    remote side hands out a crypto block. *)
Lemma get_crypto_block_bootstraps_once method_name st api :
  truthy (default VNone (settings st !! "password")) = false ->
  truthy (default (VBool false) (settings st !! "username")) = false ->
  _core_api st = Some api ->
  method_name <> "start_session" \/ remote_gives_block remote ->
  remote_calls
    (trace (snd (get_crypto_block remote method_name false st)))
  = S (remote_calls (trace st)).
Proof.
  intros Hp Hu Hapi Hcase. rewrite get_crypto_block_unfold, Hp, Hu.
  cbn [orb negb]. unfold bind.
  destruct (_start_session_cases st)
    as [(e & st' & Hrun & _ & _ & _ & _ & Ht)
       |(api0 & api' & cb & su & Hapi0 & Hr & Hsu & Hcase')].
  { rewrite Hrun. cbn [snd]. rewrite Ht, Hapi, remote_calls_app. cbn. lia. }
  assert (exists refresh,
            _start_session remote st
            = (Return cb, bootstrapped cb (api_username api')
                            (api_running_user api') refresh (called api' st))
            /\ settings (bootstrapped cb (api_username api')
                           (api_running_user api') refresh (called api' st))
                 !! "username" = Some (api_username api'))
    as (refresh & Hrun & Hu').
  { destruct Hcase' as [(ip & site & _ & _ & _ & Hrun)|(_ & Esu & Hrun)];
      eexists; (split; [exact Hrun | ]);
      rewrite bootstrapped_settings_username; [done | ].
    unfold called. cbn [settings with_core_api with_trace]. congruence. }
  rewrite Hrun. rewrite (get_crypto_block_lookup_run _ _ _ _ Hu'). cbn zeta.
  remember (bootstrapped cb (api_username api') (api_running_user api')
                        refresh (called api' st)) as st1 eqn:Est1.
  assert (remote_calls (trace st1) = S (remote_calls (trace st))) as Hcalls.
  { subst st1. by rewrite bootstrapped_remote_calls, called_remote_calls. }
  assert ((negb (truthy (retrieved st1
                           (crypto_session_key (api_username api') method_name)))
           && String.eqb method_name "start_session") = false) as ->.
  { destruct Hcase as [Hm|Hblock].
    - apply String.eqb_neq in Hm. by rewrite Hm, andb_false_r.
    - destruct (String.eqb_spec method_name "start_session") as [->|Hm];
        [ | by rewrite andb_false_r].
      pose proof (Hblock _ _ _ _ Hr) as Hcb.
      subst st1. unfold bootstrapped. rewrite Hcb, retrieved_stored, Hcb. done. }
  cbn [snd trace with_trace].
  rewrite remote_calls_app, remote_calls_retrieve_events,
    remote_calls_key_derived. lia.
Qed.


(** ** Storing and reading back *)

(** X1: whatever [_store_data] stores under a key, with or without a
    session and with or without the durable commit, [_retrieve_data] reads
    back for that key, and what it answers for any other key is what it
    answered before the write. *)
Theorem store_then_retrieve
    (st : State) (key key' : string) (data : value) (save_session : bool) :
  let st1 := snd (_store_data key data save_session st) in
  fst (_store_data key data save_session st) = Return tt /\
  fst (_retrieve_data key st1) = Return data /\
  (key' <> key ->
   fst (_retrieve_data key' st1) = fst (_retrieve_data key' st)).
Proof.
  cbn zeta. rewrite _store_data_run, !_retrieve_data_run. cbn [fst snd].
  rewrite retrieved_stored. split; [done | ]. split; [done | ].
  intros Hne. by rewrite retrieved_stored_ne.
Qed.

(** X2: [_store_data] calls the durable commit of the session once when a
    session is attached, [save_session] is set and the session exposes
    [save], and not at all otherwise; it never makes a remote call. *)
Theorem store_data_commits
    (st : State) (key : string) (data : value) (save_session : bool) :
  let st1 := snd (_store_data key data save_session st) in
  saves (trace st1)
  = (saves (trace st)
     + match _session st with
       | Some ref => if save_session && sess_has_save (deref st ref) then 1 else 0
       | None => 0
       end)%nat /\
  remote_calls (trace st1) = remote_calls (trace st).
Proof.
  cbn zeta. rewrite _store_data_run. cbn [snd].
  rewrite remote_calls_stored, stored_trace, saves_app. split; [ | done].
  f_equal. unfold store_events. destruct (_session st) as [ref|]; [ | done].
  by destruct (save_session && _).
Qed.


(** X3: on an instance with a resolved username, a crypto block stored with
    [_set_crypto_block] is what [get_crypto_block] answers for the same
    method, without any remote call, when the call is not short-cut by a
    configured password and the block is true or the method is not the
    bootstrap method. *)
Theorem set_then_get_crypto_block
    (st : State) (username crypto_block : value) (method_name : string)
    (password_required : bool) :
  settings st !! "username" = Some username ->
  truthy username = true ->
  truthy crypto_block = true \/ method_name <> "start_session" ->
  password_required = true
  \/ truthy (default VNone (settings st !! "password")) = false ->
  let st1 := snd (_set_crypto_block crypto_block method_name st) in
  let r := get_crypto_block remote method_name password_required st1 in
  fst (_set_crypto_block crypto_block method_name st) = Return tt /\
  fst r = Return crypto_block /\
  remote_calls (trace (snd r)) = remote_calls (trace st).
Proof.
  intros Hu Ht Hcb Hpw. cbn zeta.
  rewrite (_set_crypto_block_run _ _ _ _ Hu). cbn [fst snd].
  split; [done | ].
  set (st1 := stored _ _ _ _).
  assert (settings st1 = settings st) as Hs1.
  { subst st1. by rewrite stored_settings. }
  assert (get_crypto_block remote method_name password_required st1
          = (Return crypto_block,
             with_trace
               (trace (key_derived username method_name st1)
                  ++ retrieve_events st1
                       (crypto_session_key username method_name)) st1))
    as ->.
  { rewrite get_crypto_block_unfold, Hs1.
    assert ((password_required
             || negb (truthy (default VNone (settings st !! "password"))))
            = true) as ->.
    { destruct Hpw as [-> | ->]; [done | by rewrite orb_true_r]. }
    rewrite Hu. cbn [default from_option id]. rewrite Ht. cbn [negb].
    unfold bind, ret.
    rewrite (get_crypto_block_lookup_run _ _ _ username) by (by rewrite Hs1).
    cbn zeta. subst st1. rewrite retrieved_stored.
    assert ((negb (truthy crypto_block)
             && String.eqb method_name "start_session") = false) as ->.
    { destruct Hcb as [-> | Hm]; [done | ].
      apply String.eqb_neq in Hm. by rewrite Hm, andb_false_r. }
    done. }
  cbn [fst snd trace with_trace]. split; [done | ].
  rewrite remote_calls_app, remote_calls_retrieve_events,
    remote_calls_key_derived.
  subst st1. rewrite remote_calls_stored, remote_calls_key_derived. lia.
Qed.

(** ** More on reconfiguration *)



(** X4: a reconfiguration that changes none of username, network origin
    and requesting site purges nothing: the local store and the session
    objects are exactly as they were, and so is what [_retrieve_data]
    answers for any key. *)
Theorem reconfiguration_with_same_identity_keeps_stores
    (st : State) (a : Kwargs) (key : string) :
  ~ identity_changes a st ->
  let st' := snd (_configure default_settings initial_running_user a st) in
  _session_store st' = _session_store st /\
  heap st' = heap st /\
  _session st' = _session st /\
  fst (_retrieve_data key st') = fst (_retrieve_data key st).
Proof.
  intros Hsame. cbn zeta. rewrite _configure_run.
  destruct (identity_differs a st) eqn:Hd.
  { by apply identity_differs_spec in Hd. }
  cbn [snd]. unfold adopt.
  cbn [_session_store heap _session with_core_api with_settings].
  rewrite looked_up_session_store, looked_up_heap, looked_up_session.
  do 3 (split; [done | ]).
  rewrite !_retrieve_data_run. cbn [fst]. f_equal.
  unfold retrieved, deref.
  cbn [_session_store heap _session with_core_api with_settings].
  by rewrite looked_up_session_store, looked_up_heap, looked_up_session.
Qed.



(** ** When the bootstrap succeeds *)

(** With a client and the three identity keys in the settings, the
    bootstrap succeeds as soon as the remote call does. *)
Lemma _start_session_succeeds st api crypto_block api' su ip site :
  _core_api st = Some api ->
  remote (remote_calls (trace st)) api = (Return crypto_block, api') ->
  settings st !! "username" = Some su ->
  settings st !! "remote_ip" = Some ip ->
  settings st !! "remote_site" = Some site ->
  exists refresh,
    _start_session remote st
    = (Return crypto_block,
       bootstrapped crypto_block (api_username api') (api_running_user api')
                    refresh (called api' st)) /\
    settings (bootstrapped crypto_block (api_username api')
                (api_running_user api') refresh (called api' st))
      !! "username" = Some (api_username api').
Proof.
  intros Hapi Hr Hu Hip Hsite.
  destruct (_start_session_cases st)
    as [(e & st' & Hrun & _)
       |(api0 & api0' & cb & su0 & Hapi0 & Hr0 & Hsu0 & Hcase)].
  - exfalso. revert Hrun.
    unfold _start_session, core_api_start_session.
    unfold bind at 1. rewrite Hapi, Hr. fold (called api' st).
    unfold bind at 1, core_api_attr at 1. cbn [_core_api called with_core_api].
    unfold bind at 1, settings_getitem at 1.
    cbn [settings called with_core_api with_trace]. rewrite Hu.
    fold (called api' st).
    destruct (negb (truthy su) || ne (api_username api') su).
    + unfold bind at 1 2, settings_getitem at 1.
      cbn [settings called with_core_api with_trace]. rewrite Hip.
      unfold bind at 1, settings_getitem at 1.
      cbn [settings called with_core_api with_trace]. rewrite Hsite.
      unfold settings_setitem, modify. unfold bind at 1.
      unfold _set_cached_username. unfold bind at 1. rewrite _store_data_run.
      unfold bind at 1, core_api_attr. rewrite stored_core_api.
      cbn [_core_api with_settings called with_core_api with_trace].
      unfold _set_cached_running_user. rewrite _store_data_run.
      destruct (truthy crypto_block); unfold when.
      * unfold bind at 1.
        erewrite _set_crypto_block_run
          by (rewrite !stored_settings; cbn [settings with_settings];
              apply lookup_insert_eq).
        by intros [=].
      * by intros [=].
    + unfold ret at 1. unfold bind at 1.
      destruct (truthy crypto_block); unfold when.
      * unfold bind at 1.
        erewrite _set_crypto_block_run
          by (cbn [settings called with_core_api with_trace]; exact Hu).
        by intros [=].
      * by intros [=].
  - rewrite Hapi in Hapi0. injection Hapi0 as <-.
    rewrite Hr in Hr0. injection Hr0 as <- <-.
    destruct Hcase as [(ip0 & site0 & _ & _ & _ & Hrun)|(_ & Esu & Hrun)];
      eexists; (split; [exact Hrun | ]);
      rewrite bootstrapped_settings_username; [done | ].
    unfold called. cbn [settings with_core_api with_trace]. congruence.
Qed.

(** X6: on an instance that has been configured, [_start_session] succeeds
    whenever the remote call does: it returns the crypto block of the remote
    side, leaves the username the remote side established in the settings,
    and has made exactly one remote call. *)
Theorem configured_instance_bootstraps
    (st : State) (a : Kwargs) (crypto_block : value) (api' : CoreAPI) :
  let st' := snd (_configure default_settings initial_running_user a st) in
  remote (remote_calls (trace st'))
         (new_CoreAPI initial_running_user
            (adopted default_settings a (supplied_username a st)))
  = (Return crypto_block, api') ->
  let r := _start_session remote st' in
  fst r = Return crypto_block /\
  settings (snd r) !! "username" = Some (api_username api') /\
  remote_calls (trace (snd r)) = S (remote_calls (trace st')).
Proof.
  cbn zeta. rewrite _configure_run. cbn [snd]. intros Hr.
  destruct (_start_session_succeeds
              (adopt default_settings initial_running_user a (supplied_username a st)
                 (if identity_differs a st
                  then snd (_clear_crypto_blocks (looked_up a st))
                  else looked_up a st))
              (new_CoreAPI initial_running_user
                 (adopted default_settings a (supplied_username a st)))
              crypto_block api'
              (supplied_username a st) (kw_remote_ip a) (kw_remote_site a))
    as (refresh & Hrun & Hu).
  { done. }
  { done. }
  { exact (_get_settings_username
             (adopted default_settings a (supplied_username a st))). }
  { exact (_get_settings_remote_ip
             (adopted default_settings a (supplied_username a st))). }
  { exact (_get_settings_remote_site
             (adopted default_settings a (supplied_username a st))). }
  rewrite Hrun. cbn [fst snd]. split; [done | ]. split; [done | ].
  by rewrite bootstrapped_remote_calls, called_remote_calls.
Qed.

(** X7: an instance constructed without any keyword has no client, so it
    cannot bootstrap: [get_crypto_block], [_get_crypto_block_for_object] and
    [get_username] all raise [AttributeError] without a remote call;
    the first two leave the instance and the world untouched, the third has
    only logged its vain look into the cache. *)
Theorem bare_instance_cannot_bootstrap
    (h : gmap nat Session) (t : list Event) (method_name : string)
    (password_required : bool) (obj : TransactionalObject) :
  let st := snd (__init__ default_settings initial_running_user bare h t) in
  fst (__init__ default_settings initial_running_user bare h t) = Return tt /\
  get_crypto_block remote method_name password_required st
  = (Raise (AttributeError "start_session"), st) /\
  _get_crypto_block_for_object remote method_name obj st
  = (Raise (AttributeError "start_session"), st) /\
  get_username remote st
  = (Raise (AttributeError "start_session"),
     with_trace (t ++ [LogRetrieve "USERNAME_None_None" VNone]) st).
Proof.
  cbn zeta. unfold __init__.
  cbn [bare ia_configure ia_settings ia_session_store ia_session ia_core_api
       default from_option id fst snd].
  set (st := {| settings := _; _session_store := _ |}).
  assert (settings st !! "username" = Some VNone) as Hu
      by apply _get_settings_username.
  assert (settings st !! "password" = Some VNone) as Hp
      by apply _get_settings_password.
  assert (settings st !! "remote_ip" = Some VNone) as Hip
      by apply _get_settings_remote_ip.
  assert (settings st !! "remote_site" = Some VNone) as Hsite
      by apply _get_settings_remote_site.
  assert (forall t', _start_session remote (with_trace t' st)
          = (Raise (AttributeError "start_session"), with_trace t' st))
    as Hboot by done.
  split; [done | ]. split; [ | split].
  - rewrite get_crypto_block_unfold, Hp, Hu.
    cbn [default from_option id truthy negb].
    rewrite orb_true_r. unfold bind. exact (Hboot t).
  - rewrite _get_crypto_block_for_object_unfold, Hu.
    cbn [default from_option id truthy negb]. unfold bind at 1 2.
    exact (Hboot t).
  - unfold get_username, settings_getitem. unfold bind at 1. rewrite Hu.
    cbn [truthy negb]. unfold bind at 1 2. rewrite Hip.
    unfold bind at 1. rewrite Hsite. unfold bind at 1.
    unfold _get_cached_username. rewrite _retrieve_data_run.
    assert (retrieved st (_get_username_session_key VNone VNone) = VNone)
      as -> by done.
    cbn [truthy negb]. unfold bind at 1.
    by rewrite (Hboot (trace st ++ retrieve_events st
                         (_get_username_session_key VNone VNone))).
Qed.



(** ** [get_username] *)

(** X8: with no username in the settings and none cached for the origin and
    site of the settings, [get_username] bootstraps; when the remote call
    succeeds it has been made exactly once and the answer is the username
    the remote side established, now held by the settings. *)
Theorem get_username_bootstraps
    (st : State) (su ip site crypto_block : value) (api api' : CoreAPI) :
  settings st !! "username" = Some su ->
  truthy su = false ->
  settings st !! "remote_ip" = Some ip ->
  settings st !! "remote_site" = Some site ->
  truthy (retrieved st (_get_username_session_key ip site)) = false ->
  _core_api st = Some api ->
  remote (remote_calls (trace st)) api = (Return crypto_block, api') ->
  let r := get_username remote st in
  fst r = Return (api_username api') /\
  settings (snd r) !! "username" = Some (api_username api') /\
  remote_calls (trace (snd r)) = S (remote_calls (trace st)).
Proof.
  intros Hu Ht Hip Hsite Hmiss Hapi Hr. cbn zeta.
  set (st1 := with_trace (trace st ++ retrieve_events st
                            (_get_username_session_key ip site)) st).
  assert (remote_calls (trace st1) = remote_calls (trace st)) as Hcalls.
  { subst st1. cbn [trace with_trace].
    rewrite remote_calls_app, remote_calls_retrieve_events. lia. }
  destruct (_start_session_succeeds st1 api crypto_block api' su ip site)
    as (refresh & Hrun & Hu'); try done.
  { by rewrite Hcalls. }
  assert (get_username remote st
          = (Return (api_username api'),
             bootstrapped crypto_block (api_username api')
               (api_running_user api') refresh (called api' st1))) as ->.
  { unfold get_username, settings_getitem. unfold bind at 1. rewrite Hu, Ht.
    cbn [negb]. unfold bind at 1 2. rewrite Hip. unfold bind at 1.
    rewrite Hsite. unfold bind at 1.
    unfold _get_cached_username. rewrite _retrieve_data_run, Hmiss.
    cbn [negb]. fold st1.
    unfold bind at 1. rewrite Hrun. unfold ret. by rewrite Hu'. }
  cbn [fst snd]. split; [done | ]. split; [done | ].
  by rewrite bootstrapped_remote_calls, called_remote_calls, Hcalls.
Qed.

(** X9: [get_username] does not adopt a username it finds in the cache.
    With no username in the settings and one cached for the origin and site
    of the settings, it makes no remote call, leaves the settings alone and
    answers with the unresolved username of the settings. *)
Theorem get_username_does_not_adopt_cached
    (st : State) (su ip site : value) :
  settings st !! "username" = Some su ->
  truthy su = false ->
  settings st !! "remote_ip" = Some ip ->
  settings st !! "remote_site" = Some site ->
  truthy (retrieved st (_get_username_session_key ip site)) = true ->
  get_username remote st
  = (Return su,
     with_trace (trace st ++ retrieve_events st
                   (_get_username_session_key ip site)) st).
Proof.
  intros Hu Ht Hip Hsite Hhit.
  unfold get_username, settings_getitem. unfold bind at 1. rewrite Hu, Ht.
  cbn [negb]. unfold bind at 1 2. rewrite Hip. unfold bind at 1.
  rewrite Hsite. unfold bind at 1.
  unfold _get_cached_username. rewrite _retrieve_data_run, Hhit. cbn [negb].
  unfold ret, bind. cbn [settings with_trace]. by rewrite Hu.
Qed.


(** ** The running user *)

(** X10: when the client holds no running user, the settings hold a
    resolved username and a running user is cached for it,
    [_get_running_user] answers with the cached one and hands it to the
    client, without a remote call; asked again, it answers from the client
    alone, touching nothing. *)
Theorem running_user_comes_from_cache
    (st : State) (api : CoreAPI) (username running_user : value) :
  _core_api st = Some api ->
  truthy (api_running_user api) = false ->
  settings st !! "username" = Some username ->
  truthy username = true ->
  retrieved st (_get_running_user_session_key username) = running_user ->
  truthy running_user = true ->
  let r := _get_running_user remote st in
  fst r = Return running_user /\
  (api_running_user <$> _core_api (snd r)) = Some running_user /\
  remote_calls (trace (snd r)) = remote_calls (trace st) /\
  _get_running_user remote (snd r) = (Return running_user, snd r).
Proof.
  intros Hapi Hno Hu Ht Hru Htru. cbn zeta.
  set (api1 := {| api_username := api_username api;
                  api_password := api_password api;
                  api_url := api_url api;
                  api_remote_ip := api_remote_ip api;
                  api_remote_site := api_remote_site api;
                  api_accept_language := api_accept_language api;
                  api_ext_start_session_url := api_ext_start_session_url api;
                  api_request_timeout := api_request_timeout api;
                  api_running_user := running_user |}).
  set (st1 := with_core_api (Some api1)
                (with_trace (trace st ++ retrieve_events st
                               (_get_running_user_session_key username)) st)).
  assert (_get_running_user remote st = (Return running_user, st1)) as ->.
  { unfold _get_running_user, core_api_attr. unfold bind at 1.
    rewrite Hapi, Hno. cbn [negb]. unfold bind at 1 2.
    rewrite (get_username_resolved _ _ Hu Ht). unfold bind at 1.
    unfold _get_cached_running_user. rewrite _retrieve_data_run, Hru, Htru.
    unfold core_api_set_running_user. cbn [_core_api with_trace].
    rewrite Hapi. fold api1. cbn [_core_api with_core_api]. done. }
  cbn [fst snd]. split; [done | ]. split; [done | ]. split.
  - subst st1. cbn [trace with_core_api with_trace].
    rewrite remote_calls_app, remote_calls_retrieve_events. lia.
  - unfold _get_running_user, core_api_attr. unfold bind at 1.
    subst st1. cbn [_core_api with_core_api api_running_user api1].
    rewrite Htru. cbn [negb]. unfold ret, bind.
    by cbn [_core_api with_core_api api_running_user api1].
Qed.

(** ** Key name spaces *)

(** X11: the three kinds of cache key never meet: whatever the origin, site,
    user names, method and object, a username key is neither a running-user
    key nor a crypto-block key, and a running-user key is no crypto-block
    key; so caching a username or a running user never overwrites a crypto
    block, and storing a crypto block never overwrites them. *)
Theorem cache_key_kinds_are_apart
    (ip site u1 u2 : value) (method_name : string) (obj : TransactionalObject)
    (st : State) (data : value) (save_session : bool) :
  _get_username_session_key ip site <> _get_running_user_session_key u1 /\
  _get_username_session_key ip site <> crypto_session_key u2 method_name /\
  _get_username_session_key ip site <> crypto_object_key u2 method_name obj /\
  _get_running_user_session_key u1 <> crypto_session_key u2 method_name /\
  _get_running_user_session_key u1 <> crypto_object_key u2 method_name obj /\
  fst (_retrieve_data (crypto_session_key u2 method_name)
         (snd (_set_cached_username data ip site st)))
  = fst (_retrieve_data (crypto_session_key u2 method_name) st) /\
  fst (_retrieve_data (crypto_session_key u2 method_name)
         (snd (_set_cached_running_user u1 data st)))
  = fst (_retrieve_data (crypto_session_key u2 method_name) st) /\
  fst (_get_cached_username ip site
         (snd (_store_data (crypto_session_key u2 method_name) data
                           save_session st)))
  = fst (_get_cached_username ip site st).
Proof.
  do 5 (split; [by intros [=] | ]).
  unfold _set_cached_username, _set_cached_running_user, _get_cached_username.
  rewrite !_store_data_run, !_retrieve_data_run. cbn [fst snd].
  rewrite !retrieved_stored_ne; [done | by intros [=] ..].
Qed.

(** X12: an object key is a plain key: the key of method [m] for an object
    with token [t] is the key of the method named [m_t].  So on an instance
    with a resolved username a true crypto block stored for an object is what
    [get_crypto_block] answers for that method name. *)
Theorem object_key_is_a_plain_key
    (st : State) (username crypto_block : value) (method_name : string)
    (obj : TransactionalObject) :
  settings st !! "username" = Some username ->
  truthy username = true ->
  truthy crypto_block = true ->
  crypto_object_key username method_name obj
  = crypto_session_key username
      (method_name ++ "_" ++ _get_cache_key obj)%string /\
  fst (get_crypto_block remote
         (method_name ++ "_" ++ _get_cache_key obj)%string true
         (snd (_set_crypto_for_object crypto_block method_name obj st)))
  = Return crypto_block.
Proof.
  intros Hu Ht Hcb.
  assert (crypto_object_key username method_name obj
          = crypto_session_key username
              (method_name ++ "_" ++ _get_cache_key obj)%string) as Hkey.
  { unfold crypto_object_key, crypto_session_key.
    by rewrite !string_append_assoc. }
  split; [done | ].
  rewrite (_set_crypto_for_object_run _ _ _ _ _ Hu). cbn [snd].
  rewrite get_crypto_block_unfold. cbn [orb].
  rewrite stored_settings. unfold key_derived at 1. cbn [settings with_trace].
  rewrite Hu. cbn [default from_option id]. rewrite Ht. cbn [negb].
  unfold bind, ret.
  rewrite (get_crypto_block_lookup_run _ _ _ username)
    by (by rewrite stored_settings).
  cbn zeta. rewrite <- Hkey, retrieved_stored, Hcb. done.
Qed.

End Proofs.

(** * The statements at concrete instances *)

Lemma crypto_block_for_object_round_trip_witness :
  fst (_get_crypto_block_for_object Ex.remote_down "purchase" Ex.basket_a
         (snd (_set_crypto_for_object (VStr "tok") "purchase" Ex.basket_a
                                      Ex.alice)))
  = Return (VStr "tok").
Proof.
  refine (proj1 (proj2 (crypto_block_for_object_round_trip Ex.remote_down
            Ex.alice (VStr "alice") (VStr "tok") "purchase" Ex.basket_a _ _)));
    reflexivity.
Defined.

Lemma crypto_blocks_of_distinct_objects_are_apart_witness :
  fst (_get_crypto_block_for_object Ex.remote_down "purchase" Ex.basket_a
         (snd (_set_crypto_for_object (VStr "tok") "purchase" Ex.basket_b
                                      Ex.alice)))
  = Return VNone.
Proof.
  refine (proj2 (proj2 (crypto_blocks_of_distinct_objects_are_apart
            Ex.remote_down Ex.basket_a Ex.basket_b (VStr "alice") "purchase" _)
            Ex.alice (VStr "tok") _ _) _ _);
    try reflexivity.
  discriminate.
Defined.

Lemma set_crypto_for_objects_commits_once_witness :
  saves (trace (snd (_set_crypto_for_objects (VStr "tok") "purchase"
                       [Ex.basket_a; Ex.basket_b] Ex.alice)))
  = 1%nat.
Proof.
  refine (proj2 (proj2 (proj2 (set_crypto_for_objects_commits_once
            Ex.alice 0%nat (VStr "alice") (VStr "tok") "purchase"
            [Ex.basket_a] Ex.basket_b _ _ _))));
    reflexivity.
Defined.

Lemma failed_bootstrap_stores_nothing_witness :
  fst (_start_session Ex.remote_down Ex.alice)
  = Raise (RemoteError "timed out") /\
  _session_store (snd (_start_session Ex.remote_down Ex.alice)) = ∅.
Proof.
  destruct (failed_bootstrap_stores_nothing Ex.remote_down Ex.alice
              (RemoteError "timed out") eq_refl) as (Hr & _ & Hl & _).
  split; [exact Hr | exact Hl].
Defined.





Lemma reconfiguration_purges_crypto_blocks_witness :
  retrieved Ex.alice_cached "CRYPTO_BLOCK_alice_purchase" = VStr "tok-purchase" /\
  holds_no_crypto_block Ex.reconfigured /\
  (forall v,
     fst (get_crypto_block Ex.remote_block "purchase" true Ex.reconfigured)
     = Return v -> v = VNone).
Proof.
  split; [reflexivity | ].
  assert (identity_changes Ex.bob Ex.alice_cached) as Hchg.
  { left. exists (VStr "alice"). split; [reflexivity | ]. split; [reflexivity | ].
    vm_compute. discriminate. }
  assert (flush_clears Ex.alice_cached) as Hflush.
  { intros ref flush [= <-] Hf. vm_compute in Hf. discriminate. }
  destruct (reconfiguration_purges_crypto_blocks Ex.defaults VNone
              Ex.remote_block
              Ex.alice_cached Ex.bob Hchg Hflush)
    as (_ & _ & _ & Hnone & Hget & _).
  split; [exact Hnone | ].
  intros v. apply Hget. discriminate.
Defined.

(** C1 as stated does not hold of the bootstrap method: after the purge,
    [get_crypto_block] for [start_session] bootstraps anew and answers with
    the fresh block. *)
Lemma reconfigured_start_session_block_is_not_absent :
  identity_changes Ex.bob Ex.alice_cached /\
  retrieved Ex.alice_cached "CRYPTO_BLOCK_alice_start_session"
  = VStr "tok-start" /\
  fst (get_crypto_block Ex.remote_block "start_session" true Ex.reconfigured)
  = Return (VStr "fresh-token") /\
  fst (get_crypto_block Ex.remote_block "start_session" true Ex.reconfigured)
  <> Return VNone.
Proof.
  split.
  { left. exists (VStr "alice"). split; [reflexivity | ]. split; [reflexivity | ].
    vm_compute. discriminate. }
  split; [reflexivity | ]. split; [reflexivity | ].
  vm_compute. discriminate.
Qed.

(** C3, at the input where the code departs from it: an instance with no
    password and no username resolved, asked for the crypto block of the
    bootstrap method, facing a remote side whose [start_session] succeeds
    without a crypto block.  The first bootstrap is not told apart from no
    bootstrap, and the remote call is made a second time. *)
Theorem get_crypto_block_bootstraps_twice_without_block :
  settings Ex.first_visit !! "password" = Some VNone /\
  settings Ex.first_visit !! "username" = Some VNone /\
  fst (get_crypto_block Ex.remote_no_block "start_session" false Ex.first_visit)
  = Return VNone /\
  remote_calls
    (trace (snd (get_crypto_block Ex.remote_no_block "start_session" false
                                  Ex.first_visit)))
  = (2 + remote_calls (trace Ex.first_visit))%nat.
Proof. repeat split; vm_compute; reflexivity. Qed.

Lemma store_then_retrieve_witness :
  fst (_retrieve_data "k" (snd (_store_data "k" VNone false Ex.alice)))
  = Return VNone /\
  fst (_retrieve_data "USERNAME_None_None"
         (snd (_store_data "k" (VStr "v") true Ex.alice_cached)))
  = Return (VStr "alice").
Proof.
  split.
  - exact (proj1 (proj2 (store_then_retrieve Ex.alice "k" "k" VNone false))).
  - refine (eq_trans
              (proj2 (proj2 (store_then_retrieve Ex.alice_cached "k"
                               "USERNAME_None_None" (VStr "v") true)) _) _).
    + discriminate.
    + reflexivity.
Defined.

Lemma set_then_get_crypto_block_witness :
  fst (get_crypto_block Ex.remote_down "purchase" true
         (snd (_set_crypto_block (VStr "tok") "purchase" Ex.alice)))
  = Return (VStr "tok").
Proof.
  refine (proj1 (proj2 (set_then_get_crypto_block Ex.remote_down Ex.alice
            (VStr "alice") (VStr "tok") "purchase" true _ _ _ _)));
    try reflexivity; by left.
Defined.

Lemma reconfiguration_with_same_identity_keeps_stores_witness :
  _session_store
    (snd (_configure Ex.defaults VNone (Ex.kw (VStr "alice") VNone VNone VNone)
                     Ex.alice_cached))
  = Ex.alice_blocks.
Proof.
  refine (proj1 (reconfiguration_with_same_identity_keeps_stores Ex.defaults
                   VNone
            Ex.alice_cached (Ex.kw (VStr "alice") VNone VNone VNone) "k" _)).
  intros H%identity_differs_spec. vm_compute in H. discriminate.
Defined.

Lemma configured_instance_bootstraps_witness :
  fst (_start_session Ex.remote_block
         (snd (_configure Ex.defaults VNone Ex.visitor Ex.anonymous)))
  = Return (VStr "fresh-token").
Proof.
  refine (proj1 (configured_instance_bootstraps Ex.defaults VNone
                   Ex.remote_block
            Ex.anonymous Ex.visitor (VStr "fresh-token")
            (snd (Ex.remote_block 0
                    (new_CoreAPI VNone (adopted Ex.defaults Ex.visitor VNone)))) _)).
  vm_compute. reflexivity.
Defined.

Lemma get_username_bootstraps_witness :
  fst (get_username Ex.remote_block Ex.first_visit) = Return (VStr "guest").
Proof.
  refine (proj1 (get_username_bootstraps Ex.remote_block Ex.first_visit
            VNone (VStr "192.0.2.7") (VStr "shop.example") (VStr "fresh-token")
            (new_CoreAPI VNone (adopted Ex.defaults Ex.visitor VNone))
            (snd (Ex.remote_block 0
                    (new_CoreAPI VNone (adopted Ex.defaults Ex.visitor VNone))))
            _ _ _ _ _ _ _));
    vm_compute; reflexivity.
Defined.

Lemma get_username_does_not_adopt_cached_witness :
  fst (get_username Ex.remote_block Ex.visitor_with_cache) = Return VNone.
Proof.
  rewrite (get_username_does_not_adopt_cached Ex.remote_block
             Ex.visitor_with_cache VNone (VStr "192.0.2.7")
             (VStr "shop.example"));
    reflexivity.
Defined.

Lemma running_user_comes_from_cache_witness :
  fst (_get_running_user Ex.remote_down Ex.alice_with_running_user)
  = Return (VObj "<RunningUser>").
Proof.
  refine (proj1 (running_user_comes_from_cache Ex.remote_down
            Ex.alice_with_running_user
            (new_CoreAPI VNone (Ex.kw (VStr "alice") VNone VNone VNone))
            (VStr "alice") (VObj "<RunningUser>") _ _ _ _ _ _));
    reflexivity.
Defined.

Lemma object_key_is_a_plain_key_witness :
  fst (get_crypto_block Ex.remote_down "purchase_basket-a" true
         (snd (_set_crypto_for_object (VStr "tok") "purchase" Ex.basket_a
                                      Ex.alice)))
  = Return (VStr "tok").
Proof.
  refine (proj2 (object_key_is_a_plain_key Ex.remote_down Ex.alice
            (VStr "alice") (VStr "tok") "purchase" Ex.basket_a _ _ _));
    reflexivity.
Defined.

(** * The helpers of util.py *)

(** ** Yes and no *)

(** X13: [resolve_boolean] answers [True] for the string 'yes' and for it
    alone, [None] for whatever is false (the empty string, [None]) and
    [False] for any other value; [boolean_to_yes_no] answers 'yes' for [True]
    alone.  A boolean turned into yes or no and resolved is itself again,
    but [None] does not survive the way back: it becomes 'no'. *)
Theorem yes_no_round_trip (b : bool) (v : value) :
  Util.resolve_boolean (Util.boolean_to_yes_no (VBool b)) = VBool b /\
  (Util.resolve_boolean v = VBool true <-> v = VStr "yes") /\
  (Util.resolve_boolean v = VNone <-> truthy v = false) /\
  (Util.resolve_boolean v = VBool false
   <-> truthy v = true /\ v <> VStr "yes") /\
  (Util.boolean_to_yes_no v = VStr "yes" <-> v = VBool true) /\
  Util.boolean_to_yes_no (Util.resolve_boolean v)
  = (if bool_decide (v = VStr "yes") then VStr "yes" else VStr "no").
Proof.
  unfold Util.resolve_boolean, Util.boolean_to_yes_no.
  split; [by destruct b | ].
  split; [ | split; [ | split; [ | split]]].
  - destruct (truthy v) eqn:Ht.
    + case_bool_decide; split; try done; congruence.
    + split; [done | ]. intros ->. discriminate.
  - destruct (truthy v); [ | done]. by case_bool_decide.
  - destruct (truthy v) eqn:Ht.
    + case_bool_decide as Hyes.
      * split; [done | ]. by intros [_ ?].
      * split; [by intros _ | done].
    + split; [done | by intros [? _]].
  - by case_bool_decide.
  - destruct (truthy v) eqn:Ht.
    + destruct (bool_decide (v = VStr "yes")); reflexivity.
    + rewrite (bool_decide_eq_false_2 (v = VStr "yes")); [reflexivity | ].
      intros ->. discriminate.
Qed.

(** ** Dates *)

Lemma fold_left_snoc {A B} (f : B -> A) (l : list B) (acc : list A) :
  fold_left (fun (acc : list A) i => acc ++ [f i]) l acc = acc ++ map f l.
Proof.
  revert acc. induction l as [|x l IH]; intros acc; cbn.
  - by rewrite app_nil_r.
  - by rewrite IH, <- app_assoc.
Qed.

Lemma dates_in_range_closed first_date last_date :
  Util.dates_in_range first_date last_date
  = map (fun i => (first_date + Z.of_nat i)%Z)
        (seq 0 (Z.to_nat (last_date - first_date + 1))).
Proof.
  unfold Util.dates_in_range, Util.py_range. cbn zeta.
  rewrite (fold_left_snoc (fun i => (first_date + i)%Z)). cbn [app].
  by rewrite map_map.
Qed.

(** X14: [dates_in_range] lists every date from the first to the last, both
    included, once each and in ascending order; it lists nothing when the
    last date is before the first. *)
Theorem dates_in_range_lists_the_range (first_date last_date : Z) :
  let dates := Util.dates_in_range first_date last_date in
  (forall d, d ∈ dates <-> (first_date <= d <= last_date)%Z) /\
  length dates = Z.to_nat (last_date - first_date + 1) /\
  StronglySorted Z.lt dates /\
  ((last_date < first_date)%Z -> dates = []).
Proof.
  cbn zeta. rewrite dates_in_range_closed.
  set (n := Z.to_nat (last_date - first_date + 1)).
  split; [ | split; [ | split]].
  - intros d. rewrite list_elem_of_fmap. split.
    + intros (i & -> & Hi%elem_of_seq). lia.
    + intros Hd. exists (Z.to_nat (d - first_date)). split; [lia | ].
      apply elem_of_seq. lia.
  - by rewrite length_map, length_seq.
  - clearbody n. generalize 0%nat as k.
    induction n as [|n IH]; intros k; cbn; constructor.
    + apply IH.
    + apply Forall_forall. intros d (i & -> & Hi%elem_of_seq)%list_elem_of_fmap.
      lia.
  - intros Hlt. subst n. by replace (Z.to_nat _) with 0%nat by lia.
Qed.

(** ** The date slugs *)

Lemma fold_left_last_match {A B} (P : A -> bool) (g : A -> B) (l : list A)
    (init : B) :
  fold_left (fun found x => if P x then g x else found) l init
  = default init (g <$> last (List.filter P l)).
Proof.
  revert init. induction l as [|x l IH]; intros init; [done | ].
  cbn [fold_left List.filter]. rewrite IH. destruct (P x); [ | done].
  destruct (List.filter P l) as [|y l'] eqn:E; [done | ].
  change (last (x :: y :: l')) with (last (y :: l')).
  by destruct (last (y :: l')) eqn:El; [ | apply last_None in El].
Qed.

Lemma date_slug_lookup (table : list Util.Mapping) (v : value) :
  Util.auto_date_to_slug table v
  = (if truthy v
     then Util.Ok
            (default VNone
               (Util.slug
                  <$> last (List.filter
                              (fun m => bool_decide (v = Util.auto_date m))
                              table)))
     else Util.Error Util.UnboundLocalError) /\
  Util.slug_to_auto_date table v
  = (if truthy v
     then Util.Ok
            (default VNone
               (Util.auto_date
                  <$> last (List.filter
                              (fun m => bool_decide (v = Util.slug m))
                              table)))
     else Util.Error Util.UnboundLocalError).
Proof.
  unfold Util.auto_date_to_slug, Util.slug_to_auto_date.
  destruct (truthy v); [ | done].
  by rewrite !fold_left_last_match.
Qed.

(** X15: [auto_date_to_slug] raises [UnboundLocalError] for an empty or
    missing auto-date; for any other it answers [None] when no entry of the
    table has it, and the slug of the last entry that has it otherwise, so
    that a later entry overrides an earlier one.  [slug_to_auto_date] does
    the same the other way round. *)
Theorem date_slug_conversions (table : list Util.Mapping) (v : value) :
  (truthy v = false ->
   Util.auto_date_to_slug table v = Util.Error Util.UnboundLocalError /\
   Util.slug_to_auto_date table v = Util.Error Util.UnboundLocalError) /\
  (truthy v = true ->
   (forall m, m ∈ table -> Util.auto_date m <> v) ->
   Util.auto_date_to_slug table v = Util.Ok VNone) /\
  (truthy v = true ->
   (forall m, m ∈ table -> Util.slug m <> v) ->
   Util.slug_to_auto_date table v = Util.Ok VNone) /\
  (forall earlier m later,
     truthy v = true ->
     table = earlier ++ m :: later ->
     Util.auto_date m = v ->
     (forall m', m' ∈ later -> Util.auto_date m' <> v) ->
     Util.auto_date_to_slug table v = Util.Ok (Util.slug m)) /\
  (forall earlier m later,
     truthy v = true ->
     table = earlier ++ m :: later ->
     Util.slug m = v ->
     (forall m', m' ∈ later -> Util.slug m' <> v) ->
     Util.slug_to_auto_date table v = Util.Ok (Util.auto_date m)).
Proof.
  assert (forall (f : Util.Mapping -> value) l,
            (forall m, m ∈ l -> f m <> v) ->
            List.filter (fun m => bool_decide (v = f m)) l = []) as Hnone.
  { intros f l. induction l as [|x l IH]; intros Hl; [done | ].
    cbn [List.filter]. rewrite bool_decide_eq_false_2.
    - apply IH. intros m Hm. apply Hl. by right.
    - intros Heq. by apply (Hl x); [left | ]. }
  assert (forall (f : Util.Mapping -> value) earlier m later,
            f m = v -> (forall m', m' ∈ later -> f m' <> v) ->
            last (List.filter (fun m => bool_decide (v = f m))
                              (earlier ++ m :: later)) = Some m) as Hlast.
  { intros f earlier m later Hm Hl. rewrite List.filter_app.
    cbn [List.filter]. rewrite bool_decide_eq_true_2 by done.
    rewrite (Hnone f later Hl). by rewrite last_snoc. }
  destruct (date_slug_lookup table v) as [Ha Hs]. rewrite Ha, Hs.
  split; [by intros -> | ].
  split; [intros -> Hm; by rewrite (Hnone Util.auto_date) | ].
  split; [intros -> Hm; by rewrite (Hnone Util.slug) | ].
  split.
  - intros earlier m later -> -> Hm Hl.
    by rewrite (Hlast Util.auto_date).
  - intros earlier m later -> -> Hm Hl.
    by rewrite (Hlast Util.slug).
Qed.

Lemma filter_none {A B} `{EqDecision B} (f : A -> B) (l : list A) (b : B) :
  b ∉ f <$> l -> List.filter (fun x => bool_decide (b = f x)) l = [].
Proof.
  induction l as [|x l IH]; intros Hb; [done | ].
  cbn [fmap list_fmap] in Hb. apply not_elem_of_cons in Hb as [Hbx Hb].
  cbn [List.filter]. rewrite bool_decide_eq_false_2 by done. by apply IH.
Qed.

Lemma filter_unique {A B} `{EqDecision B} (f : A -> B) (l : list A) (m : A) :
  NoDup (f <$> l) -> m ∈ l ->
  List.filter (fun x => bool_decide (f m = f x)) l = [m].
Proof.
  induction l as [|x l IH]; intros Hnd Hin.
  - by apply elem_of_nil in Hin.
  - cbn [fmap list_fmap] in Hnd. apply NoDup_cons in Hnd as [Hx Hnd].
    cbn [List.filter]. apply elem_of_cons in Hin as [->|Hin].
    + rewrite bool_decide_eq_true_2 by done. f_equal. by apply filter_none.
    + rewrite bool_decide_eq_false_2; [by apply IH | ].
      intros Heq. apply Hx. rewrite <- Heq. by apply list_elem_of_fmap_2.
Qed.

(** X16: on a table whose auto-dates are pairwise different and whose slugs
    are pairwise different, the two conversions are inverse of each other
    at every entry whose auto-date and slug are not empty. *)
Theorem date_slug_round_trip (table : list Util.Mapping) (m : Util.Mapping) :
  NoDup (Util.auto_date <$> table) ->
  NoDup (Util.slug <$> table) ->
  m ∈ table ->
  truthy (Util.auto_date m) = true ->
  truthy (Util.slug m) = true ->
  Util.auto_date_to_slug table (Util.auto_date m) = Util.Ok (Util.slug m) /\
  Util.slug_to_auto_date table (Util.slug m) = Util.Ok (Util.auto_date m).
Proof.
  intros Ha Hs Hin Hta Hts.
  destruct (date_slug_lookup table (Util.auto_date m)) as [-> _].
  destruct (date_slug_lookup table (Util.slug m)) as [_ ->].
  rewrite Hta, Hts.
  by rewrite (filter_unique Util.auto_date), (filter_unique Util.slug).
Qed.

(** ** The day mask *)

Lemma binary_digits_lsb p acc :
  Util.binary_digits p acc
  = rev (map Util.bit_char (Util.lsb_bits p)) ++ acc.
Proof.
  revert acc. induction p as [q IH|q IH|]; intros acc; cbn.
  - by rewrite IH, <- app_assoc.
  - by rewrite IH, <- app_assoc.
  - done.
Qed.

Lemma comprehension_bits bits :
  Util.comprehension
    (fun x => match Util.int_of_char x with
              | Util.Ok i => Util.Ok (negb (i =? 0)%Z)
              | Util.Error e => Util.Error e
              end)
    (map Util.bit_char bits)
  = Util.Ok bits.
Proof.
  induction bits as [|b bits IH]; [done | ].
  cbn [map Util.comprehension]. rewrite IH. by destruct b.
Qed.

Lemma comprehension_sign bits :
  Util.comprehension
    (fun x => match Util.int_of_char x with
              | Util.Ok i => Util.Ok (negb (i =? 0)%Z)
              | Util.Error e => Util.Error e
              end)
    (map Util.bit_char bits ++ ["-"%char])
  = Util.Error Util.ValueError.
Proof.
  induction bits as [|b bits IH]; [done | ].
  cbn [map app Util.comprehension]. rewrite IH. by destruct b.
Qed.

Lemma replicate_snoc {A} k (x : A) : replicate k x ++ [x] = x :: replicate k x.
Proof. induction k as [|k IH]; [done | ]. cbn. by rewrite IH. Qed.

Lemma rev_replicate {A} k (x : A) : rev (replicate k x) = replicate k x.
Proof.
  induction k as [|k IH]; [done | ]. cbn. by rewrite IH, replicate_snoc.
Qed.

Lemma map_replicate {A B} (f : A -> B) k (x : A) :
  map f (replicate k x) = replicate k (f x).
Proof. induction k as [|k IH]; [done | ]. cbn. by rewrite IH. Qed.

Lemma rev_zero_pad width p :
  rev (Util.zero_pad width (Util.binary_digits p []))
  = map Util.bit_char
        (Util.lsb_bits p
           ++ replicate (width - length (Util.lsb_bits p)) false).
Proof.
  unfold Util.zero_pad. rewrite binary_digits_lsb, app_nil_r.
  rewrite rev_app_distr, rev_involutive, length_rev, length_map, map_app.
  by rewrite rev_replicate, map_replicate.
Qed.

Lemma nth_lsb_bits p (i : nat) :
  nth i (Util.lsb_bits p) false = Z.testbit (Zpos p) (Z.of_nat i).
Proof.
  revert i. induction p as [q IH|q IH|]; intros i.
  - destruct i as [|i]; [done | ].
    cbn [Util.lsb_bits nth]. rewrite IH.
    rewrite Nat2Z.inj_succ, Pos2Z.inj_xI.
    change (2 * Z.pos q + 1)%Z with (2 * Z.pos q + Z.b2z true)%Z.
    by rewrite Z.testbit_succ_r by lia.
  - destruct i as [|i]; [done | ].
    cbn [Util.lsb_bits nth]. rewrite IH.
    rewrite Nat2Z.inj_succ, Pos2Z.inj_xO.
    replace (2 * Z.pos q)%Z with (2 * Z.pos q + Z.b2z false)%Z by (cbn; lia).
    by rewrite Z.testbit_succ_r by lia.
  - destruct i as [|i]; [done | ].
    cbn [Util.lsb_bits nth]. rewrite Nat2Z.inj_succ.
    destruct i; [done | ].
    symmetry. apply Z.bits_above_log2; cbn; lia.
Qed.

Lemma nth_app_replicate_false (l : list bool) k i :
  nth i (l ++ replicate k false) false = nth i l false.
Proof.
  destruct (Nat.lt_ge_cases i (length l)) as [Hlt|Hge].
  - by rewrite app_nth1.
  - rewrite app_nth2, (nth_overflow l) by done.
    generalize (i - length l)%nat as j. induction k as [|k IH]; intros [|j]; cbn;
      auto.
Qed.

Lemma length_lsb_bits_small p :
  (Z.pos p < 128)%Z -> (length (Util.lsb_bits p) <= 7)%nat.
Proof.
  do 7 (destruct p as [p|p|]; cbn [Util.lsb_bits length]; try lia).
Qed.

(** X17: for a mask that is a non-negative integer, [day_mask_to_bool_list]
    answers a list whose entry [i] is bit [i] of the mask, the lowest bit
    first; the list has seven entries for a mask below 128 and is never
    shorter.  A negative mask makes it raise [ValueError]. *)
Theorem day_mask_to_bool_list_bits (day_mask : Z) :
  ((0 <= day_mask)%Z ->
   exists days,
     Util.day_mask_to_bool_list day_mask = Util.Ok days /\
     (7 <= length days)%nat /\
     ((day_mask < 128)%Z -> length days = 7%nat) /\
     forall i : nat, nth i days false = Z.testbit day_mask (Z.of_nat i)) /\
  ((day_mask < 0)%Z ->
   Util.day_mask_to_bool_list day_mask = Util.Error Util.ValueError).
Proof.
  unfold Util.day_mask_to_bool_list, Util.format_07b. cbn zeta.
  rewrite list_ascii_of_string_of_list_ascii.
  destruct day_mask as [|p|p].
  - split; [ | lia]. intros _. exists (replicate 7 false).
    split; [reflexivity | ]. split; [cbn; lia | ]. split; [done | ].
    intros i. rewrite Z.testbit_0_l.
    do 7 (destruct i as [|i]; [done | ]). by destruct i.
  - split; [ | lia]. intros _. rewrite rev_zero_pad, comprehension_bits.
    eexists. split; [done | ]. rewrite length_app, length_replicate.
    split; [lia | ]. split.
    + intros Hp%length_lsb_bits_small. lia.
    + intros i. by rewrite nth_app_replicate_false, nth_lsb_bits.
  - split; [lia | ]. intros _. cbn [rev].
    by rewrite rev_zero_pad, comprehension_sign.
Qed.

(** ** XML and dictionaries *)

Lemma create_dict_from_xml_element_fold root :
  Util.create_dict_from_xml_element root
  = fold_left (fun d c =>
                 Util._add_xml_elem_to_dict (Util.tag c) (Util.element_value c) d)
              (Util.children root) [].
Proof.
  destruct root as [t x cs]. cbn [Util.create_dict_from_xml_element Util.children].
  generalize (@nil (string * Util.pyobj)) as acc.
  induction cs as [|c cs IH]; intros acc; [done | ].
  cbn [fold_left]. rewrite <- IH. f_equal.
  by destruct c as [t' x' [|c' cs']].
Qed.

Lemma dict_get_set_eq d key v :
  Util.dict_get (Util.dict_set d key v) key = Some v.
Proof.
  induction d as [|[k old] d IH]; cbn.
  - by rewrite String.eqb_refl.
  - destruct (String.eqb k key) eqn:E; cbn; by rewrite E.
Qed.

Lemma dict_get_set_ne d key key' v :
  key <> key' ->
  Util.dict_get (Util.dict_set d key v) key' = Util.dict_get d key'.
Proof.
  intros Hne. induction d as [|[k old] d IH]; cbn.
  - by apply String.eqb_neq in Hne as ->.
  - destruct (String.eqb k key) eqn:E; cbn; [ | by rewrite IH].
    apply String.eqb_eq in E as ->.
    by apply String.eqb_neq in Hne as ->.
Qed.

Lemma dict_get_absent d key :
  key ∉ map fst d -> Util.dict_get d key = None.
Proof.
  induction d as [|[k v] d IH]; cbn; [done | ].
  intros [Hk Hd]%not_elem_of_cons.
  destruct (String.eqb_spec k key) as [->|_]; [done | by apply IH].
Qed.

Lemma dict_set_absent d key v :
  key ∉ map fst d -> Util.dict_set d key v = d ++ [(key, v)].
Proof.
  induction d as [|[k old] d IH]; cbn; [done | ].
  intros [Hk Hd]%not_elem_of_cons.
  destruct (String.eqb_spec k key) as [->|_]; [done | by rewrite IH].
Qed.

Lemma element_value_shape c :
  (exists x, Util.element_value c = Util.text_value x)
  \/ (exists d, Util.element_value c = Util.PDict d).
Proof.
  unfold Util.element_value. destruct (Util.children c); eauto.
Qed.

(** The values of the elements of [cs] that carry the tag [key]. *)
Lemma add_collected acc key c vs :
  Forall (fun v => exists c', v = Util.element_value c') vs ->
  Util.dict_get acc key = Util.collected vs ->
  Util.dict_get (Util._add_xml_elem_to_dict key (Util.element_value c) acc) key
  = Util.collected (vs ++ [Util.element_value c]).
Proof.
  intros Hvs Hget. unfold Util._add_xml_elem_to_dict. rewrite Hget.
  destruct vs as [|v0 [|v1 vs]]; cbn [Util.collected app].
  - apply dict_get_set_eq.
  - rewrite dict_get_set_eq.
    apply Forall_cons in Hvs as [[c0 ->] _].
    destruct (element_value_shape c0) as [[[s|] ->]|[d ->]]; reflexivity.
  - rewrite dict_get_set_eq. by destruct vs.
Qed.

Lemma add_other_key acc key key' v :
  key <> key' ->
  Util.dict_get (Util._add_xml_elem_to_dict key v acc) key'
  = Util.dict_get acc key'.
Proof.
  intros Hne. unfold Util._add_xml_elem_to_dict.
  destruct (Util.dict_get acc key); by apply dict_get_set_ne.
Qed.

Lemma children_collected key cs : forall pre acc,
  Util.dict_get acc key
  = Util.collected
      (map Util.element_value
         (List.filter (fun c => String.eqb (Util.tag c) key) pre)) ->
  Util.dict_get
    (fold_left (fun d c =>
                  Util._add_xml_elem_to_dict (Util.tag c) (Util.element_value c) d)
               cs acc) key
  = Util.collected
      (map Util.element_value
         (List.filter (fun c => String.eqb (Util.tag c) key) (pre ++ cs))).
Proof.
  induction cs as [|c cs IH]; intros pre acc Hacc.
  - by rewrite app_nil_r.
  - cbn [fold_left].
    replace (pre ++ c :: cs) with ((pre ++ [c]) ++ cs) by by rewrite <- app_assoc.
    apply IH. rewrite List.filter_app. cbn [List.filter].
    destruct (String.eqb_spec (Util.tag c) key) as [->|Hne].
    + rewrite map_app. cbn [map]. apply add_collected; [ | done].
      apply List.Forall_forall. intros v Hv.
      apply in_map_iff in Hv as (c' & <- & _). eauto.
    + rewrite app_nil_r. by rewrite add_other_key.
Qed.

(** X18 ([create_dict_from_xml_element], [_add_xml_elem_to_dict]).  What the
    dictionary of an element holds under a key is decided by the children
    that carry the key as their tag: nothing when there is none, the value
    of the child when there is one, and the list of the children's values,
    in document order, when there are several.  The value of a child is its
    text when it has no children of its own, and its own dictionary
    otherwise. *)
Theorem xml_children_are_collected_by_tag root key :
  Util.dict_get (Util.create_dict_from_xml_element root) key
  = Util.collected
      (map Util.element_value
         (List.filter (fun c => String.eqb (Util.tag c) key)
                      (Util.children root))).
Proof.
  rewrite create_dict_from_xml_element_fold.
  exact (children_collected key (Util.children root) [] [] eq_refl).
Qed.

Lemma pyobj_nested_ind (P : Util.pyobj -> Prop) :
  P Util.PNone ->
  (forall b, P (Util.PBool b)) ->
  (forall s, P (Util.PStr s)) ->
  (forall r, P (Util.POther r)) ->
  (forall l, Forall P l -> P (Util.PList l)) ->
  (forall d, Forall (fun kv => P (snd kv)) d -> P (Util.PDict d)) ->
  forall v, P v.
Proof.
  intros HN HB HS HO HL HD. fix IH 1. intros [ |b|s|r|l|d].
  - exact HN.
  - apply HB.
  - apply HS.
  - apply HO.
  - apply HL. induction l as [|v l IHl]; constructor; [apply IH | exact IHl].
  - apply HD. induction d as [|[k v] d IHd]; constructor; [apply IH | exact IHd].
Qed.

Lemma recur_xml_value_dict in_list key d :
  Util.recur_xml_value in_list key (Util.PDict d)
  = [Util.mkElement key None
       (flat_map (fun kv => Util.recur_xml_value false (fst kv) (snd kv)) d)].
Proof.
  cbn [Util.recur_xml_value]. do 2 f_equal.
  induction d as [|[k v] d IH]; cbn [flat_map fst snd]; [done | by rewrite IH].
Qed.

Lemma recur_xml_value_list in_list key l :
  Util.recur_xml_value in_list key (Util.PList l)
  = (if in_list then [Util.mkElement key None []] else [])
      ++ flat_map (Util.recur_xml_value true key) l.
Proof.
  reflexivity.
Qed.

Lemma plain_dict d :
  Util.plain (Util.PDict d)
  = match d with [] => false | _ :: _ => true end
    && bool_decide (NoDup (map fst d))
    && forallb (fun kv => Util.plain (snd kv)) d.
Proof.
  cbn [Util.plain]. f_equal.
  induction d as [|[k v] d IH]; cbn [forallb snd]; [done | by rewrite IH].
Qed.

Lemma fold_distinct_tags es : forall acc,
  NoDup (map fst acc ++ map Util.tag es) ->
  fold_left (fun d c =>
               Util._add_xml_elem_to_dict (Util.tag c) (Util.element_value c) d)
            es acc
  = acc ++ map (fun e => (Util.tag e, Util.element_value e)) es.
Proof.
  induction es as [|e es IH]; intros acc Hnd; cbn [fold_left map].
  - by rewrite app_nil_r.
  - cbn [map] in Hnd.
    assert (Util.tag e ∉ map fst acc) as Hfresh.
    { apply NoDup_app in Hnd as (_ & Hd & _). intros Hin.
      apply (Hd _ Hin). left. }
    unfold Util._add_xml_elem_to_dict at 2.
    rewrite dict_get_absent, dict_set_absent by done.
    rewrite IH.
    + by rewrite <- app_assoc.
    + rewrite map_app. cbn [map fst]. by rewrite <- app_assoc.
Qed.

Lemma items_written_back d :
  Forall (fun kv => written_back (snd kv)) d ->
  forallb (fun kv => Util.plain (snd kv)) d = true ->
  exists es,
    flat_map (fun kv => Util.recur_xml_value false (fst kv) (snd kv)) d = es
    /\ map (fun e => (Util.tag e, Util.element_value e)) es = d.
Proof.
  induction 1 as [|[k v] d Hv _ IH]; cbn [forallb flat_map fst snd].
  - by exists [].
  - intros [Hp Hd]%andb_prop. destruct (IH Hd) as (es & -> & Hes).
    cbn [snd] in Hv. destruct (Hv Hp false k) as (e & -> & Ht & He).
    exists (e :: es). split; [done | ]. cbn [map]. by rewrite Ht, He, Hes.
Qed.

Lemma plain_written_back v : written_back v.
Proof.
  induction v as [ |b|s|r|l _|d IH] using pyobj_nested_ind;
    intros Hp in_list key; try discriminate Hp.
  - by exists (Util.mkElement key (Some s) []).
  - rewrite plain_dict in Hp.
    apply andb_prop in Hp as [[Hne Hnd]%andb_prop Hall].
    apply bool_decide_eq_true in Hnd.
    destruct (items_written_back d IH Hall) as (es & Hes & Hback).
    rewrite recur_xml_value_dict, Hes.
    eexists. split; [done | ]. split; [done | ].
    unfold Util.element_value. cbn [Util.children].
    destruct es as [|e es]; [by subst d | ].
    rewrite create_dict_from_xml_element_fold. cbn [Util.children].
    rewrite fold_distinct_tags.
    + by rewrite Hback.
    + cbn [map app]. rewrite <- Hback in Hnd.
      rewrite map_map in Hnd. exact Hnd.
Qed.

(** X19 ([create_xml_from_dict], [_recur_xml_dict],
    [create_dict_from_xml_element]).  A dictionary whose values are strings
    or dictionaries of the same kind that are not empty comes back from its
    XML as it went: converting it to an element and the element to a
    dictionary gives the dictionary, whatever the name of the root. *)
Theorem xml_round_trip root_name d :
  NoDup (map fst d) ->
  Forall (fun kv => Util.plain (snd kv) = true) d ->
  Util.create_dict_from_xml_element (Util.create_xml_from_dict root_name d) = d.
Proof.
  intros Hnd Hall.
  destruct (items_written_back d) as (es & Hes & Hback).
  { apply List.Forall_forall. intros kv _. apply plain_written_back. }
  { apply forallb_forall. by apply List.Forall_forall. }
  rewrite create_dict_from_xml_element_fold.
  unfold Util.create_xml_from_dict, Util._recur_xml_dict, Util.append_children.
  cbn [Util.children app]. rewrite Hes, fold_distinct_tags; [done | ].
  cbn [map app]. rewrite <- Hback, map_map in Hnd. exact Hnd.
Qed.

Lemma xml_round_trip_witness :
  Util.create_dict_from_xml_element
    (Util.create_xml_from_dict "make_reservation"
       [("user_id", Util.PStr "alice");
        ("order", Util.PDict [("perf_id", Util.PStr "6IF-A7N");
                              ("no_of_seats", Util.PStr "2")])])
  = [("user_id", Util.PStr "alice");
     ("order", Util.PDict [("perf_id", Util.PStr "6IF-A7N");
                           ("no_of_seats", Util.PStr "2")])].
Proof.
  apply xml_round_trip.
  - apply (bool_decide_unpack _). vm_compute. reflexivity.
  - repeat constructor.
Defined.

Lemma recur_xml_value_tags v : forall in_list key,
  Forall (fun e => Util.tag e = key) (Util.recur_xml_value in_list key v).
Proof.
  induction v as [ |b|s|r|l IH|d _] using pyobj_nested_ind; intros in_list key.
  - by repeat constructor.
  - destruct b; by repeat constructor.
  - by repeat constructor.
  - by repeat constructor.
  - rewrite recur_xml_value_list. apply Forall_app. split.
    + destruct in_list; by repeat constructor.
    + induction IH as [|v l Hv _ IHl]; cbn [flat_map]; [constructor | ].
      apply Forall_app. split; [apply Hv | exact IHl].
  - rewrite recur_xml_value_dict. by repeat constructor.
Qed.

(** The tag is all an element owes to the key it was written under. *)
Lemma recur_xml_value_values v : forall in_list key key',
  map Util.element_value (Util.recur_xml_value in_list key v)
  = map Util.element_value (Util.recur_xml_value in_list key' v).
Proof.
  induction v as [ |b|s|r|l IH|d _] using pyobj_nested_ind;
    intros in_list key key'; try reflexivity.
  - by destruct b.
  - rewrite !recur_xml_value_list, !map_app. f_equal.
    + by destruct in_list.
    + induction IH as [|v l Hv _ IHl]; cbn [flat_map]; [done | ].
      rewrite !map_app. f_equal; [apply Hv | exact IHl].
Qed.

Lemma filter_tag_all key es :
  Forall (fun e => Util.tag e = key) es ->
  List.filter (fun c => String.eqb (Util.tag c) key) es = es.
Proof.
  induction 1 as [|e es He _ IH]; cbn [List.filter]; [done | ].
  by rewrite He, String.eqb_refl, IH.
Qed.

Lemma filter_tag_none key key' es :
  key' <> key ->
  Forall (fun e => Util.tag e = key') es ->
  List.filter (fun c => String.eqb (Util.tag c) key) es = [].
Proof.
  intros Hne. induction 1 as [|e es He _ IH]; cbn [List.filter]; [done | ].
  rewrite He. by apply String.eqb_neq in Hne as ->.
Qed.

Lemma dict_get_elem d key v :
  Util.dict_get d key = Some v -> key ∈ map fst d.
Proof.
  induction d as [|[k x] d IH]; cbn; [done | ].
  destruct (String.eqb_spec k key) as [->|_]; [left | right; by apply IH].
Qed.

Lemma children_of_item d key v :
  NoDup (map fst d) ->
  Util.dict_get d key = Some v ->
  List.filter (fun c => String.eqb (Util.tag c) key)
    (flat_map (fun kv => Util.recur_xml_value false (fst kv) (snd kv)) d)
  = Util.recur_xml_value false key v.
Proof.
  induction d as [|[k x] d IH]; cbn [map fst snd flat_map Util.dict_get];
    [done | ].
  intros [Hk Hd]%NoDup_cons. rewrite List.filter_app.
  destruct (String.eqb_spec k key) as [->|Hne].
  - intros [= ->]. rewrite filter_tag_all by apply recur_xml_value_tags.
    rewrite <- (app_nil_r (Util.recur_xml_value false key v)) at 2. f_equal.
    clear IH Hd. induction d as [|[k' x'] d IH]; cbn [flat_map fst snd]; [done | ].
    cbn [map fst] in Hk. apply not_elem_of_cons in Hk as [Hne Hk].
    rewrite List.filter_app, IH by done.
    rewrite (filter_tag_none key k') by (done || apply recur_xml_value_tags).
    done.
  - intros Hget.
    rewrite (filter_tag_none key k) by (done || apply recur_xml_value_tags).
    by apply IH.
Qed.

Lemma item_comes_back root_name d key v :
  NoDup (map fst d) ->
  Util.dict_get d key = Some v ->
  Util.dict_get
    (Util.create_dict_from_xml_element (Util.create_xml_from_dict root_name d))
    key
  = comes_back v.
Proof.
  intros Hnd Hget. rewrite create_dict_from_xml_element_fold.
  rewrite (children_collected key _ [] [] eq_refl).
  unfold Util.create_xml_from_dict, Util._recur_xml_dict, Util.append_children.
  cbn [Util.children app]. rewrite (children_of_item d key v) by done.
  unfold comes_back. by rewrite (recur_xml_value_values v false key "").
Qed.

Lemma absent_item_stays_absent root_name d key :
  Util.dict_get d key = None ->
  Util.dict_get
    (Util.create_dict_from_xml_element (Util.create_xml_from_dict root_name d))
    key
  = None.
Proof.
  intros Hget. rewrite create_dict_from_xml_element_fold.
  rewrite (children_collected key _ [] [] eq_refl).
  unfold Util.create_xml_from_dict, Util._recur_xml_dict, Util.append_children.
  cbn [Util.children app].
  replace (List.filter _ _) with (@nil Util.Element); [done | ].
  symmetry. induction d as [|[k x] d IH]; cbn [flat_map fst snd]; [done | ].
  cbn [Util.dict_get] in Hget.
  destruct (String.eqb_spec k key) as [->|Hne]; [done | ].
  rewrite List.filter_app, IH by done.
  by rewrite (filter_tag_none key k) by (done || apply recur_xml_value_tags).
Qed.

(** X20 ([create_xml_from_dict], [_recur_xml_dict],
    [create_dict_from_xml_element]).  What the XML does not keep.  Of a
    dictionary with an item under [key], converted to an element and back:
    [False] leaves no entry at all, [True] comes back as [None], [None] as
    the string "None", any other value that is no dict and no list as its
    text, and an empty dict as [None].  A string comes back as it went; a
    key the dictionary lacks stays absent. *)
Theorem xml_scalars_come_back_as_text root_name d key :
  let back := Util.create_dict_from_xml_element
                (Util.create_xml_from_dict root_name d) in
  NoDup (map fst d) ->
  match Util.dict_get d key with
  | None => Util.dict_get back key = None
  | Some (Util.PBool false) => Util.dict_get back key = None
  | Some (Util.PBool true) => Util.dict_get back key = Some Util.PNone
  | Some Util.PNone => Util.dict_get back key = Some (Util.PStr "None")
  | Some (Util.POther repr) => Util.dict_get back key = Some (Util.PStr repr)
  | Some (Util.PStr s) => Util.dict_get back key = Some (Util.PStr s)
  | Some (Util.PDict []) => Util.dict_get back key = Some Util.PNone
  | Some _ => True
  end.
Proof.
  intros back Hnd. subst back.
  destruct (Util.dict_get d key) as [v|] eqn:Hget.
  - pose proof (item_comes_back root_name d key v Hnd Hget) as Hback.
    destruct v as [ |[|]|s|r|l|[|item d']]; exact Hback || exact I.
  - by apply absent_item_stays_absent.
Qed.

Lemma list_written_back l key :
  Forall (fun v => Util.plain v = true) l ->
  map Util.element_value (flat_map (Util.recur_xml_value true key) l) = l.
Proof.
  induction 1 as [|v l Hv _ IH]; cbn [flat_map]; [done | ].
  destruct (plain_written_back v Hv true key) as (e & -> & _ & He).
  cbn [app map]. by rewrite He, IH.
Qed.

(** X21 ([_recur_xml_list], [_recur_xml_dict], [_add_xml_elem_to_dict],
    [create_dict_from_xml_element]).  A list of plain values (strings and
    dictionaries of them that are not empty) under a key of a dictionary
    comes back as the list when it has two values or more, as the bare
    value when it has one, and not at all when it is empty. *)
Theorem xml_list_comes_back_collected root_name d key l :
  NoDup (map fst d) ->
  Util.dict_get d key = Some (Util.PList l) ->
  Forall (fun v => Util.plain v = true) l ->
  Util.dict_get
    (Util.create_dict_from_xml_element (Util.create_xml_from_dict root_name d))
    key
  = match l with
    | [] => None
    | [v] => Some v
    | _ => Some (Util.PList l)
    end.
Proof.
  intros Hnd Hget Hl.
  rewrite (item_comes_back root_name d key _ Hnd Hget).
  unfold comes_back. rewrite recur_xml_value_list. cbn [app].
  by rewrite list_written_back.
Qed.

(** ** The statements of util.py at concrete inputs *)

Lemma dates_in_range_lists_the_range_witness :
  (11 ∈ Util.dates_in_range 10 12)%Z /\ Util.dates_in_range 12 10 = [].
Proof.
  split.
  - apply (proj1 (dates_in_range_lists_the_range 10 12)). lia.
  - apply (proj2 (proj2 (proj2 (dates_in_range_lists_the_range 12 10)))). lia.
Defined.

Lemma date_slug_conversions_witness :
  Util.auto_date_to_slug Ex.overridden_slugs (VStr "+7")
  = Util.Ok (VStr "in-a-week")
  /\ Util.auto_date_to_slug Ex.date_slugs VNone
     = Util.Error Util.UnboundLocalError.
Proof.
  split.
  - refine (proj1 (proj2 (proj2 (proj2
              (date_slug_conversions Ex.overridden_slugs (VStr "+7")))))
              [ {| Util.auto_date := VStr "+7"; Util.slug := VStr "next-week" |} ]
              {| Util.auto_date := VStr "+7"; Util.slug := VStr "in-a-week" |}
              [] _ _ _ _); try reflexivity.
    intros m' Hm'. by apply elem_of_nil in Hm'.
  - apply (proj1 (date_slug_conversions Ex.date_slugs VNone)). reflexivity.
Defined.

Lemma date_slug_round_trip_witness :
  Util.auto_date_to_slug Ex.date_slugs (VStr "+7") = Util.Ok (VStr "next-week")
  /\ Util.slug_to_auto_date Ex.date_slugs (VStr "next-week")
     = Util.Ok (VStr "+7").
Proof.
  refine (date_slug_round_trip Ex.date_slugs
            {| Util.auto_date := VStr "+7"; Util.slug := VStr "next-week" |}
            _ _ _ _ _); try reflexivity.
  - apply (bool_decide_unpack _). vm_compute. reflexivity.
  - apply (bool_decide_unpack _). vm_compute. reflexivity.
  - right. right. left.
Defined.

Lemma day_mask_to_bool_list_bits_witness :
  (exists days,
     Util.day_mask_to_bool_list 5 = Util.Ok days /\
     (7 <= length days)%nat /\
     ((5 < 128)%Z -> length days = 7%nat) /\
     forall i : nat, nth i days false = Z.testbit 5 (Z.of_nat i))
  /\ Util.day_mask_to_bool_list (-1) = Util.Error Util.ValueError.
Proof.
  split.
  - apply (proj1 (day_mask_to_bool_list_bits 5)). lia.
  - apply (proj2 (day_mask_to_bool_list_bits (-1))). lia.
Defined.

Lemma xml_scalars_come_back_as_text_witness :
  let back := Util.create_dict_from_xml_element
                (Util.create_xml_from_dict "availability" Ex.flags_request) in
  Util.dict_get back "req_seat_blocks" = Some Util.PNone
  /\ Util.dict_get back "req_avail_details" = None
  /\ Util.dict_get back "promo_code" = Some (Util.PStr "None")
  /\ Util.dict_get back "no_of_seats" = Some (Util.PStr "2").
Proof.
  assert (NoDup (map fst Ex.flags_request)) as Hnd.
  { apply (bool_decide_unpack _). vm_compute. reflexivity. }
  cbn zeta. split; [ | split; [ | split]].
  - exact (xml_scalars_come_back_as_text
             "availability" Ex.flags_request "req_seat_blocks" Hnd).
  - exact (xml_scalars_come_back_as_text
             "availability" Ex.flags_request "req_avail_details" Hnd).
  - exact (xml_scalars_come_back_as_text
             "availability" Ex.flags_request "promo_code" Hnd).
  - exact (xml_scalars_come_back_as_text
             "availability" Ex.flags_request "no_of_seats" Hnd).
Defined.

Lemma xml_list_comes_back_collected_witness :
  Util.dict_get
    (Util.create_dict_from_xml_element
       (Util.create_xml_from_dict "reserve" Ex.seats_request))
    "seat"
  = Some (Util.PList [Util.PStr "A1"; Util.PStr "A2"]).
Proof.
  refine (xml_list_comes_back_collected "reserve" Ex.seats_request "seat"
            [Util.PStr "A1"; Util.PStr "A2"] _ _ _).
  - apply (bool_decide_unpack _). vm_compute. reflexivity.
  - reflexivity.
  - repeat constructor.
Defined.
